(** * The admin panel's data layer and route table

  A shallow embedding of
  - [src/utils/dataUtils.ts]       (module [DataUtils]),
  - [src/services/policyService.ts] (module [PolicyService]),
  - [src/layout/AppContent.tsx]     (module [AppContent]),
  followed by the properties of the specification that were checked
  against them.

  Conventions of the embedding.
  - A JavaScript [number] is an exact rational ([Q]); [NaN] and the
    infinities are not represented.  [Math.round] yields an integer ([Z]).
  - A string is its sequence of UTF-8 bytes.
  - A document field that may be absent is an [option]; [None] stands for
    [undefined].  Fields carry the types the display models declare.
  - The asynchronous functions are run to completion one after the other:
    an [await] is a call into the host.
  - Everything the code obtains from outside the repository (Firestore,
    [Math.random], the string built-ins whose Unicode tables are not
    reproduced here) is a field of the record [Host]; module state, the
    console and the trace of database requests live in [World]. *)

From Stdlib Require Import String Ascii List Bool Arith ZArith QArith Qround Lia Lqa.
Import ListNotations.

Local Open Scope string_scope.

(* ================================================================= *)
(** ** JavaScript values and operators *)

Module Js.

Definition number := Q.

(** [Math.round]: the nearest integer, halves towards plus infinity. *)
Definition Math_round (x : number) : Z := Qfloor (x + (1 # 2)).

Definition Math_floor (x : number) : Z := Qfloor x.

(** [x > y] on numbers. *)
Definition gt (x y : number) : bool := negb (Qle_bool x y).

(** Truthiness: [0] and the empty string are falsy, every array is
    truthy, [undefined] is falsy. *)
Definition truthy_number (x : number) : bool := negb (Qeq_bool x 0).

Definition truthy_string (s : string) : bool := negb (String.eqb s "").

Definition truthy_opt_string (x : option string) : bool :=
  match x with
  | Some s => truthy_string s
  | None => false
  end.

(** [x || d], at the three types it is used at. *)
Definition or_number (x : option number) (d : number) : number :=
  match x with
  | Some v => if truthy_number v then v else d
  | None => d
  end.

Definition or_string (x : option string) (d : string) : string :=
  match x with
  | Some s => if truthy_string s then s else d
  | None => d
  end.

Definition or_array {A : Type} (x : option (list A)) (d : list A) : list A :=
  match x with
  | Some l => l
  | None => d
  end.

(** Conversion to a string, as done by a template literal and by a
    property key. *)
Definition ToString (x : option string) : string :=
  match x with
  | Some s => s
  | None => "undefined"
  end.

(** [s.includes(sub)]. *)
Fixpoint includes (s sub : string) : bool :=
  if String.prefix sub s then true
  else match s with
       | EmptyString => false
       | String _ s' => includes s' sub
       end.

(** Lower case of the ASCII letters; the other bytes are kept. *)
Definition lower (c : ascii) : ascii :=
  let n := nat_of_ascii c in
  if (65 <=? n)%nat && (n <=? 90)%nat then ascii_of_nat (n + 32) else c.

Fixpoint lowercase (s : string) : string :=
  match s with
  | EmptyString => EmptyString
  | String c s' => String (lower c) (lowercase s')
  end.

(** [xs[i]] for an integer index: [undefined] out of range. *)
Definition index {A : Type} (xs : list A) (i : Z) : option A :=
  if (i <? 0)%Z then None else nth_error xs (Z.to_nat i).

(** A thrown value. *)
Record Error := { message : string }.

Inductive Result (A : Type) : Type :=
| Ok (a : A)
| Throw (e : Error).
Arguments Ok {A} a.
Arguments Throw {A} e.

Inductive ConsoleEntry :=
| console_warn (msg : string)
| console_error (msg : string) (err : Error).

End Js.

Export Js.

(* ================================================================= *)
(** ** The Firestore client, as far as the code uses it *)

Module Firestore.

(** An element of [querySnapshot.docs]. *)
Record QueryDocumentSnapshot (D : Type) := {
  doc_id : string;
  doc_data : D
}.
Arguments doc_id {D} _.
Arguments doc_data {D} _.

(** What [getDoc] resolves to; only [id] and [exists()] are read. *)
Record DocumentSnapshot := {
  snap_id : string;
  snap_exists : bool
}.

Inductive OrderByDirection := asc | desc.

Inductive QueryConstraint :=
| where_ (field op value : string)
| orderBy (field : string) (direction : OrderByDirection)
| startAfter (snapshot : DocumentSnapshot)
| limit (n : Z).

(** A request sent to the database. *)
Inductive Request :=
| GetDocs (collection : string) (constraints : list QueryConstraint)
| GetDoc (collection : string) (id : string).

End Firestore.

Export Firestore.

(* ================================================================= *)
(** ** Documents and display models *)

(** A document of the [parties] collection, with the fields
  [processPartiesData] reads. *)
Module PartyDoc.
Record t := {
  name : option string;
  supportCount : option number;
  oppositionCount : option number;
  memberCount : option number;
  majorPolicies : option (list string);
  overview : option string
}.
End PartyDoc.

(** The [Party] display model: the object literal [processPartiesData]
  builds ([name] is whatever the document holds, possibly
  [undefined]). *)
Module Party.
Record t := {
  id : string;
  name : option string;
  color : string;
  supportRate : Z;
  opposeRate : Z;
  totalVotes : number;
  members : number;
  keyPolicies : list string;
  description : string;
  image : string
}.
End Party.

(** A document of the [policy] collection, with the fields
  [convertToPolicyObject] reads. *)
Module PolicyDoc.
Record PoliticalParty := {
  PartyName : option string;
  Claims : option string
}.

Record t := {
  Title : option string;
  Description : option string;
  AffectedFields : option (list string);
  Status : option string;
  ProposedDate : option string;
  SupportRate : option number;
  NonSupportRate : option number;
  totalCommentCount : option number;
  KeyPoints : option (list string);
  EconomicImpact : option string;
  LifeImpact : option string;
  PoliticalParties : option (list PoliticalParty)
}.
End PolicyDoc.

(* ================================================================= *)
(** ** The host and the world *)

Module Runtime.

(** What the host answers.  The database oracles take the number of
    requests made before, so that the collections may change between
    two requests; [Math_random] takes the number of earlier draws. *)
Record Host := {
  encodeURIComponent : string -> Result string;
  toLowerCase : string -> string;
  trim : string -> string;
  Math_random : nat -> number;
  parties_getDocs :
    nat -> Result (list (QueryDocumentSnapshot PartyDoc.t));
  policy_getDocs :
    nat -> list QueryConstraint ->
    Result (list (QueryDocumentSnapshot PolicyDoc.t));
  policy_getDoc : nat -> string -> Result DocumentSnapshot
}.

(** The mutable state: the module variable [cachedParties] of
    dataUtils, the console, the database requests made so far and the
    number of random draws. *)
Record World := {
  cachedParties : option (list Party.t);
  console : list ConsoleEntry;
  requests : list Request;
  draws : nat
}.

Definition initial : World :=
  {| cachedParties := None; console := []; requests := []; draws := 0 |}.

(** [w'] differs from [w] in its console at most. *)
Definition console_only (w w' : World) : Prop :=
  cachedParties w' = cachedParties w
  /\ requests w' = requests w
  /\ draws w' = draws w.

(** Computations: a world in, a result or a thrown error and a world
    out.  What was done before a throw stays done. *)
Definition M (A : Type) : Type := World -> Result A * World.

Definition ret {A : Type} (a : A) : M A := fun w => (Ok a, w).

Definition throw {A : Type} (e : Error) : M A := fun w => (Throw e, w).

Definition bind {A B : Type} (m : M A) (k : A -> M B) : M B :=
  fun w =>
    match m w with
    | (Ok a, w') => k a w'
    | (Throw e, w') => (Throw e, w')
    end.

(** [try { m } catch (e) { handler e }]. *)
Definition try_catch {A : Type} (m : M A) (handler : Error -> M A) : M A :=
  fun w =>
    match m w with
    | (Ok a, w') => (Ok a, w')
    | (Throw e, w') => handler e w'
    end.

Definition lift {A : Type} (r : Result A) : M A := fun w => (r, w).

Definition log (entry : ConsoleEntry) : M unit :=
  fun w =>
    (Ok tt,
     {| cachedParties := cachedParties w;
        console := console w ++ [entry];
        requests := requests w;
        draws := draws w |}).

Definition get_cachedParties : M (option (list Party.t)) :=
  fun w => (Ok (cachedParties w), w).

Definition set_cachedParties (v : option (list Party.t)) : M unit :=
  fun w =>
    (Ok tt,
     {| cachedParties := v;
        console := console w;
        requests := requests w;
        draws := draws w |}).

(** Sending a request: it is recorded, then answered by [answer]. *)
Definition request {A : Type} (r : Request) (answer : nat -> Result A) : M A :=
  fun w =>
    (answer (length (requests w)),
     {| cachedParties := cachedParties w;
        console := console w;
        requests := requests w ++ [r];
        draws := draws w |}).

Definition random (h : Host) : M number :=
  fun w =>
    (Ok (Math_random h (draws w)),
     {| cachedParties := cachedParties w;
        console := console w;
        requests := requests w;
        draws := S (draws w) |}).

(** [xs.map(f)] for a callback with effects, left to right. *)
Fixpoint mapM {A B : Type} (f : A -> M B) (xs : list A) : M (list B) :=
  match xs with
  | [] => ret []
  | x :: xs' =>
      bind (f x) (fun y => bind (mapM f xs') (fun ys => ret (y :: ys)))
  end.

Declare Scope js_scope.
Delimit Scope js_scope with js.
Notation "x <- m ;; k" := (bind m (fun x => k))
  (at level 61, m at next level, right associativity) : js_scope.
Notation "m ;;; k" := (bind m (fun _ => k))
  (at level 61, right associativity) : js_scope.

End Runtime.

Export Runtime.
Local Open Scope js_scope.

(* ================================================================= *)
(** ** src/utils/dataUtils.ts *)

Module DataUtils.

(** The [switch] of [getPartyColor]: its cases in order, each returning
    its colour. *)
Definition cases : list (string * string) :=
  [ ("自由民主党", "#555555");
    ("立憲民主党", "#4361EE");
    ("公明党", "#7209B7");
    ("日本維新の会", "#228B22");
    ("国民民主党", "#000080");
    ("日本共産党", "#E63946");
    ("れいわ新選組", "#F72585");
    ("社民党", "#118AB2");
    ("参政党", "#FF4500") ].

(** [switch (x) { case k: return v; ... default: return d; }] *)
Fixpoint switch (cs : list (string * string)) (d : string) (x : string)
  : string :=
  match cs with
  | [] => d
  | (k, v) :: cs' => if String.eqb x k then v else switch cs' d x
  end.

Definition getPartyColor (affiliation : string) : string :=
  switch cases "#808080" affiliation.

(** The argument handed over by [processPartiesData] is [data.name],
    which may be [undefined]; no case is strictly equal to it. *)
Definition getPartyColor_of (affiliation : option string) : string :=
  match affiliation with
  | Some s => getPartyColor s
  | None => "#808080"
  end.

Definition getPartyImagePath (h : Host) (partyName : option string)
  : M string :=
  try_catch
    (enc <- lift (encodeURIComponent h (ToString partyName)) ;;
     ret ("/cm_parly_images/" ++ enc ++ ".jpg"))
    (fun _ =>
       log (console_warn
              ("政党画像が見つかりません: " ++ ToString partyName ++ ".jpg")) ;;;
       ret "/api/placeholder/80/80").

(** The callback of [partiesSnapshot.docs.map]. *)
Definition toParty (h : Host) (doc : QueryDocumentSnapshot PartyDoc.t)
  : M Party.t :=
  let data := doc_data doc in
  let partyName := PartyDoc.name data in
  let totalVotes :=
    or_number (PartyDoc.supportCount data) 0
    + or_number (PartyDoc.oppositionCount data) 0 in
  let supportRate :=
    if gt totalVotes 0
    then Math_round
           (or_number (PartyDoc.supportCount data) 0 / totalVotes * 100)
    else 50%Z in
  image <- getPartyImagePath h partyName ;;
  ret {| Party.id := doc_id doc;
         Party.name := partyName;
         Party.color := getPartyColor_of partyName;
         Party.supportRate := supportRate;
         Party.opposeRate := 100 - supportRate;
         Party.totalVotes := or_number (Some totalVotes) 0;
         Party.members := or_number (PartyDoc.memberCount data) 0;
         Party.keyPolicies := or_array (PartyDoc.majorPolicies data) [];
         Party.description :=
           or_string (PartyDoc.overview data)
             (ToString partyName ++ "の政策と理念に基づいた政党です。");
         Party.image := image |}.

Definition processPartiesData (h : Host) : M (list Party.t) :=
  cached <- get_cachedParties ;;
  match cached with
  | Some parties => ret parties
  | None =>
      try_catch
        (docs <- request (GetDocs "parties" []) (parties_getDocs h) ;;
         parties <- mapM (toParty h) docs ;;
         set_cachedParties (Some parties) ;;;
         ret parties)
        (fun error =>
           log (console_error
                  "Firestoreからの政党データ取得に失敗しました:" error) ;;;
           ret [])
  end.

(** [getPartyById]: [None] is [undefined]. *)
Definition getPartyById (h : Host) (id : string) : M (option Party.t) :=
  cached <- get_cachedParties ;;
  (match cached with
   | None => _ <- processPartiesData h ;; ret tt
   | Some _ => ret tt
   end) ;;;
  cached' <- get_cachedParties ;;
  ret (find (fun party => String.eqb (Party.id party) id)
         (or_array cached' [])).

End DataUtils.

(* ================================================================= *)
(** ** src/services/policyService.ts *)

Module PolicyService.

Inductive Trending := up | down | none.

(** What reading a property of the object literal [partyColors] can
    give: one of the strings written in the literal, or a member the
    literal inherits from [Object.prototype] (a function, or the
    prototype itself for [__proto__]); the latter are truthy and are not
    strings. *)
Inductive PropertyValue :=
| own_string (s : string)
| inherited (key : string).

Record ProposingParty := {
  name : option string;
  color : PropertyValue
}.

Record PoliticalParty := {
  partyName : option string;
  claims : option string
}.

Record Policy := {
  totalCommentCount : option number;
  id : string;
  title : string;
  description : string;
  category : string;
  status : string;
  proposedDate : string;
  supportRate : Z;
  opposeRate : Z;
  totalVotes : number;
  trending : option Trending;
  proposingParty : ProposingParty;
  affectedFields : list string;
  keyPoints : list string;
  economicImpact : string;
  lifeImpact : string;
  politicalParties : list PoliticalParty
}.

Definition partyColors : list (string * string) :=
  [ ("自由民主党", "#E60012");
    ("立憲民主党", "#FFD900");
    ("日本維新の会", "#FF4500");
    ("公明党", "#00A0E9");
    ("国民民主党", "#009944");
    ("日本共産党", "#A40000");
    ("れいわ新選組", "#800080");
    ("社会民主党", "#800000") ].

(** The property names every object literal inherits in a browser. *)
Definition Object_prototype : list string :=
  [ "constructor"; "hasOwnProperty"; "isPrototypeOf";
    "propertyIsEnumerable"; "toLocaleString"; "toString"; "valueOf";
    "__proto__"; "__defineGetter__"; "__defineSetter__";
    "__lookupGetter__"; "__lookupSetter__" ].

(** [literal[key]]: the literal's own property, else the inherited one,
    else [undefined]. *)
Definition get (literal : list (string * string)) (key : string)
  : option PropertyValue :=
  match find (fun kv => String.eqb (fst kv) key) literal with
  | Some kv => Some (own_string (snd kv))
  | None =>
      if existsb (String.eqb key) Object_prototype
      then Some (inherited key)
      else None
  end.

Definition getPartyColor (partyName : string) : PropertyValue :=
  match get partyColors partyName with
  | Some (own_string s) =>
      if truthy_string s then own_string s else own_string "#808080"
  | Some (inherited key) => inherited key
  | None => own_string "#808080"
  end.

Definition trendOptions : list Trending := [up; down; none].

(** [data.AffectedFields?.[0]] *)
Definition first_field (fields : option (list string)) : option string :=
  match fields with
  | Some (f :: _) => Some f
  | _ => None
  end.

Definition convertToPolicyObject (h : Host) (id : string) (data : PolicyDoc.t)
  : M Policy :=
  let supportRate := or_number (PolicyDoc.SupportRate data) 50 in
  let opposeRate := or_number (PolicyDoc.NonSupportRate data) 50 in
  let totalVotes := supportRate + opposeRate in
  let normalizedSupportRate :=
    if gt totalVotes 0
    then Math_round (supportRate / totalVotes * 100)
    else 50%Z in
  let normalizedOpposeRate :=
    if gt totalVotes 0
    then Math_round (opposeRate / totalVotes * 100)
    else 50%Z in
  trending <-
    (if (normalizedSupportRate >? 60)%Z then ret (Some up)
     else if (normalizedSupportRate <? 40)%Z then ret (Some down)
     else r <- random h ;; ret (index trendOptions (Math_floor (r * 3)))) ;;
  let politicalParties :=
    or_array
      (option_map
         (map (fun party =>
                 {| partyName := PolicyDoc.PartyName party;
                    claims := PolicyDoc.Claims party |}))
         (PolicyDoc.PoliticalParties data))
      [] in
  let proposingParty :=
    match politicalParties with
    | first :: _ =>
        {| name := partyName first;
           color := getPartyColor (ToString (partyName first)) |}
    | [] =>
        {| name := Some "不明"; color := own_string "#808080" |}
    end in
  ret {| id := id;
         title := or_string (PolicyDoc.Title data) "不明なタイトル";
         description := or_string (PolicyDoc.Description data) "説明なし";
         category := or_string (first_field (PolicyDoc.AffectedFields data))
                       "その他";
         status := or_string (PolicyDoc.Status data) "審議中";
         proposedDate := or_string (PolicyDoc.ProposedDate data) "2023年";
         supportRate := normalizedSupportRate;
         opposeRate := normalizedOpposeRate;
         totalVotes := totalVotes;
         trending := trending;
         totalCommentCount := PolicyDoc.totalCommentCount data;
         proposingParty := proposingParty;
         affectedFields := or_array (PolicyDoc.AffectedFields data) [];
         keyPoints := or_array (PolicyDoc.KeyPoints data) [];
         economicImpact := or_string (PolicyDoc.EconomicImpact data) "";
         lifeImpact := or_string (PolicyDoc.LifeImpact data) "";
         politicalParties := politicalParties |}.

(** The value [fetchPoliciesWithFilterAndSort] resolves to. *)
Record Page := {
  policies : list Policy;
  lastDocumentId : option string;
  hasMore : bool
}.

(** The [switch] over [sortMethod], after the two initialisations. *)
Definition ordering (sortMethod : string) : string * OrderByDirection :=
  if String.eqb sortMethod "supportDesc" then ("SupportRate", desc)
  else if String.eqb sortMethod "supportAsc" then ("SupportRate", asc)
  else if String.eqb sortMethod "opposeDesc" then ("NonSupportRate", desc)
  else ("SupportRate", desc).

(** The constraints pushed before the cursor is looked up. *)
Definition filters (categoryFilter partyFilter sortMethod : string)
  : list QueryConstraint :=
  (if String.eqb categoryFilter "all" then []
   else [where_ "AffectedFields" "array-contains" categoryFilter])
  ++ (if String.eqb partyFilter "all" then []
      else [where_ "name" "==" partyFilter])
  ++ [orderBy (fst (ordering sortMethod)) (snd (ordering sortMethod))].

(** The block guarded by [if (lastDocumentId)]: the constraint it
    pushes, if any. *)
Definition cursor (h : Host) (lastDocumentId : option string)
  : M (list QueryConstraint) :=
  match lastDocumentId with
  | Some lastId =>
      if truthy_string lastId then
        try_catch
          (lastDoc <- request (GetDoc "policy" lastId)
                        (fun n => policy_getDoc h n lastId) ;;
           if snap_exists lastDoc then ret [startAfter lastDoc]
           else
             log (console_warn
                    ("最後のドキュメントID " ++ lastId ++ " が見つかりません")) ;;;
             ret [])
          (fun docError =>
             log (console_error "ドキュメント取得エラー:" docError) ;;;
             ret [])
      else ret []
  | None => ret []
  end.

(** The predicate of [policies.filter]. *)
Definition matches (h : Host) (lowerSearchTerm : string) (policy : Policy)
  : bool :=
  includes (toLowerCase h (title policy)) lowerSearchTerm
  || includes (toLowerCase h (description policy)) lowerSearchTerm.

(** [searchTerm] and [limitCount] are the parameters with defaults:
    [None] is an omitted argument. *)
Definition fetchPoliciesWithFilterAndSort (h : Host)
  (categoryFilter partyFilter sortMethod : string)
  (searchTerm_arg : option string) (lastDocumentId : option string)
  (limitCount_arg : option Z) : M Page :=
  let searchTerm := match searchTerm_arg with Some s => s | None => "" end in
  let limitCount := match limitCount_arg with Some n => n | None => 5%Z end in
  try_catch
    (let conditions := filters categoryFilter partyFilter sortMethod in
     after <- cursor h lastDocumentId ;;
     let conditions := (conditions ++ after ++ [limit limitCount])%list in
     docs <- request (GetDocs "policy" conditions)
               (fun n => policy_getDocs h n conditions) ;;
     converted <-
       mapM (fun doc => convertToPolicyObject h (doc_id doc) (doc_data doc))
         docs ;;
     let policies :=
       if truthy_string (trim h searchTerm)
       then filter (matches h (toLowerCase h searchTerm)) converted
       else converted in
     let hasMore := (Z.of_nat (length policies) =? limitCount)%Z in
     let lastVisibleDocument :=
       index docs (Z.of_nat (length docs) - 1) in
     ret {| policies := policies;
            lastDocumentId := option_map doc_id lastVisibleDocument;
            hasMore := hasMore |})
    (fun error =>
       log (console_error "政策データ取得エラー:" error) ;;;
       throw error).

End PolicyService.

(* ================================================================= *)
(** ** src/layout/AppContent.tsx *)

Module AppContent.

Inductive Element :=
| LoginPage
| PartyAdminLayout
| Navigate (to : string)
| ProtectedAdminRoute (children : Element).

Record Route := {
  path : string;
  element : Element
}.

(** The children of [<Routes>], in the order they are written. *)
Definition routes : list Route :=
  [ {| path := "/"; element := Navigate "/admin/login" |};
    {| path := "/admin/login"; element := LoginPage |};
    {| path := "/admin/party/:partyId/*";
       element := ProtectedAdminRoute PartyAdminLayout |};
    {| path := "/admin"; element := Navigate "/admin/login" |};
    {| path := "*"; element := Navigate "/" |} ].

(** *** Route matching, as React Router (version 6) does it *)

(** [s.split("/")], with the segment being read in [segment]. *)
Fixpoint split_from (segment s : string) : list string :=
  match s with
  | EmptyString => [segment]
  | String c s' =>
      if Ascii.eqb c "/" then segment :: split_from "" s'
      else split_from (segment ++ String c "") s'
  end.

Definition split (s : string) : list string := split_from "" s.

(** The segments of a pathname: what follows its leading slash, cut at
    the slashes, trailing slashes ignored.  [None] when there is no
    leading slash. *)
Fixpoint drop_trailing_empty (segments : list string) : list string :=
  match segments with
  | [] => []
  | s :: rest =>
      match drop_trailing_empty rest with
      | [] => if String.eqb s "" then [] else [s]
      | rest' => s :: rest'
      end
  end.

Definition segments_of (pathname : string) : option (list string) :=
  match pathname with
  | String c rest =>
      if Ascii.eqb c "/" then Some (drop_trailing_empty (split rest))
      else None
  | EmptyString => None
  end.

(** A route path, read: its segments, and whether it ends in a splat. *)
Inductive Segment :=
| Static (s : string)
| Param (name : string).

Record Pattern := {
  prefix : list Segment;
  splat : bool
}.

Definition is_param (s : string) : bool :=
  match s with
  | String c _ => Ascii.eqb c ":"
  | EmptyString => false
  end.

Definition segment_of (s : string) : Segment :=
  match s with
  | String c name => if Ascii.eqb c ":" then Param name else Static s
  | EmptyString => Static s
  end.

Definition compilePath (path : string) : Pattern :=
  let parts := filter (fun s => negb (String.eqb s "")) (split path) in
  {| prefix :=
       map segment_of (filter (fun s => negb (String.eqb s "*")) parts);
     splat := existsb (String.eqb "*") parts |}.

(** Matching is not case sensitive; the letters of the route paths are
    ASCII letters, so the comparison is that of [lowercase]. *)
Definition segment_matches (p : Segment) (s : string) : bool :=
  match p with
  | Static t => String.eqb (lowercase t) (lowercase s)
  | Param _ => negb (String.eqb s "")
  end.

Fixpoint segments_match (ps : list Segment) (splat : bool)
  (segments : list string) : bool :=
  match ps, segments with
  | [], [] => true
  | [], _ :: _ => splat
  | _ :: _, [] => false
  | p :: ps', s :: segments' =>
      segment_matches p s && segments_match ps' splat segments'
  end.

Definition matchPath (path pathname : string) : bool :=
  match segments_of pathname with
  | Some segments =>
      segments_match (prefix (compilePath path)) (splat (compilePath path))
        segments
  | None => false
  end.

(** The score that ranks the routes: the number of parts of the path
    (the part before its leading slash included), 10 for a static part,
    3 for a parameter, 1 for an empty part, and 2 taken off for a
    splat. *)
Definition computeScore (path : string) : Z :=
  let parts :=
    match path with
    | String "/" _ => split path
    | _ => "" :: split path
    end in
  let initialScore :=
    (Z.of_nat (length parts)
     + (if existsb (String.eqb "*") parts then -2 else 0))%Z in
  fold_left
    (fun score part =>
       (score + (if is_param part then 3
                 else if String.eqb part "" then 1 else 10))%Z)
    (filter (fun s => negb (String.eqb s "*")) parts)
    initialScore.

(** Routes by decreasing score, those of equal score in written order. *)
Fixpoint insert_ranked (r : Route) (ranked : list Route) : list Route :=
  match ranked with
  | [] => [r]
  | r' :: rest =>
      if (computeScore (path r') <? computeScore (path r))%Z
      then r :: ranked
      else r' :: insert_ranked r rest
  end.

Definition rankRoutes (rs : list Route) : list Route :=
  fold_left (fun ranked r => insert_ranked r ranked) rs [].

Definition matchRoutes (rs : list Route) (pathname : string)
  : option Route :=
  find (fun r => matchPath (path r) pathname) (rankRoutes rs).

(** *** Rendering *)

(** Modelled from the spec: [ProtectedAdminRoute] is imported from
    components/auth and is not part of the sources; the specification
    says that the admin layout is gated by an authentication check and
    that an unauthenticated visit resolves to the login page.  So the
    guard renders its children when the visitor is authenticated and
    navigates to the login path otherwise. *)
Definition guard (authenticated : bool) (children : Element) : Element :=
  if authenticated then children else Navigate "/admin/login".

Fixpoint render (authenticated : bool) (e : Element) : Element :=
  match e with
  | ProtectedAdminRoute children =>
      guard authenticated (render authenticated children)
  | _ => e
  end.

(** What ends up on the page at [pathname]: the matched element, a
    [Navigate] being followed to the path it names.  [fuel] bounds the
    number of route matches. *)
Fixpoint resolve (fuel : nat) (authenticated : bool) (pathname : string)
  : option Element :=
  match fuel with
  | O => None
  | S fuel' =>
      match matchRoutes routes pathname with
      | None => None
      | Some r =>
          match render authenticated (element r) with
          | Navigate to => resolve fuel' authenticated to
          | e => Some e
          end
      end
  end.

End AppContent.


(* ================================================================= *)
(** ** A concrete host, for worked examples

    The built-ins below agree with the JavaScript ones on strings of
    ASCII characters, which is all the examples feed them. *)

Module Examples.

Definition unreserved (c : ascii) : bool :=
  let n := nat_of_ascii c in
  ((65 <=? n)%nat && (n <=? 90)%nat) || ((97 <=? n)%nat && (n <=? 122)%nat)
  || ((48 <=? n)%nat && (n <=? 57)%nat)
  || existsb (Ascii.eqb c) ["-"; "_"; "."; "!"; "~"; "*"; "'"; "("; ")"]%char.

Definition hex (n : nat) : ascii :=
  nth n ["0"; "1"; "2"; "3"; "4"; "5"; "6"; "7"; "8"; "9";
         "A"; "B"; "C"; "D"; "E"; "F"]%char "0"%char.

(** Percent-encoding of the UTF-8 bytes outside the unreserved set. *)
Fixpoint percent_encode (s : string) : string :=
  match s with
  | EmptyString => EmptyString
  | String c s' =>
      if unreserved c then String c (percent_encode s')
      else
        let n := nat_of_ascii c in
        String "%" (String (hex (n / 16)%nat) (String (hex (n mod 16)%nat)
                                             (percent_encode s')))
  end.

Definition is_space (c : ascii) : bool :=
  let n := nat_of_ascii c in
  (n =? 32)%nat || ((9 <=? n)%nat && (n <=? 13)%nat).

Fixpoint trim_start (s : string) : string :=
  match s with
  | EmptyString => EmptyString
  | String c s' => if is_space c then trim_start s' else s
  end.

Fixpoint trim_end (s : string) : string :=
  match s with
  | EmptyString => EmptyString
  | String c s' =>
      match trim_end s' with
      | EmptyString => if is_space c then EmptyString else String c EmptyString
      | rest => String c rest
      end
  end.

(** A host over a database that answers [parties], [policies] and
    [lookup]; [Math.random] always draws [0]. *)
Definition host
  (parties : nat -> Result (list (QueryDocumentSnapshot PartyDoc.t)))
  (policies : nat -> list QueryConstraint ->
              Result (list (QueryDocumentSnapshot PolicyDoc.t)))
  (lookup : nat -> string -> Result DocumentSnapshot) : Host :=
  {| encodeURIComponent := fun s => Ok (percent_encode s);
     toLowerCase := lowercase;
     trim := fun s => trim_end (trim_start s);
     Math_random := fun _ => 0;
     parties_getDocs := parties;
     policy_getDocs := policies;
     policy_getDoc := lookup |}.

Definition unavailable : Error := {| message := "unavailable" |}.

(** A database that is down, and one whose collections are empty. *)
Definition host_down : Host :=
  host (fun _ => Throw unavailable) (fun _ _ => Throw unavailable)
    (fun _ _ => Throw unavailable).

Definition host_empty : Host :=
  host (fun _ => Ok []) (fun _ _ => Ok [])
    (fun _ id => Ok {| snap_id := id; snap_exists := false |}).

(** The document with no field at all. *)
Definition empty_policy : PolicyDoc.t :=
  {| PolicyDoc.Title := None;
     PolicyDoc.Description := None;
     PolicyDoc.AffectedFields := None;
     PolicyDoc.Status := None;
     PolicyDoc.ProposedDate := None;
     PolicyDoc.SupportRate := None;
     PolicyDoc.NonSupportRate := None;
     PolicyDoc.totalCommentCount := None;
     PolicyDoc.KeyPoints := None;
     PolicyDoc.EconomicImpact := None;
     PolicyDoc.LifeImpact := None;
     PolicyDoc.PoliticalParties := None |}.

Definition empty_party : PartyDoc.t :=
  {| PartyDoc.name := None;
     PartyDoc.supportCount := None;
     PartyDoc.oppositionCount := None;
     PartyDoc.memberCount := None;
     PartyDoc.majorPolicies := None;
     PartyDoc.overview := None |}.

(** A policy document with a title, a description and the two rates. *)
Definition policy_doc (id title description : string) (support oppose : number)
  : QueryDocumentSnapshot PolicyDoc.t :=
  {| doc_id := id;
     doc_data :=
       {| PolicyDoc.Title := Some title;
          PolicyDoc.Description := Some description;
          PolicyDoc.AffectedFields := None;
          PolicyDoc.Status := None;
          PolicyDoc.ProposedDate := None;
          PolicyDoc.SupportRate := Some support;
          PolicyDoc.NonSupportRate := Some oppose;
          PolicyDoc.totalCommentCount := None;
          PolicyDoc.KeyPoints := None;
          PolicyDoc.EconomicImpact := None;
          PolicyDoc.LifeImpact := None;
          PolicyDoc.PoliticalParties := None |} |}.

(** A party document with a name and the two counts. *)
Definition party_doc (id name : string) (support opposition : number)
  : QueryDocumentSnapshot PartyDoc.t :=
  {| doc_id := id;
     doc_data :=
       {| PartyDoc.name := Some name;
          PartyDoc.supportCount := Some support;
          PartyDoc.oppositionCount := Some opposition;
          PartyDoc.memberCount := None;
          PartyDoc.majorPolicies := None;
          PartyDoc.overview := None |} |}.

(** A collection of two policies, only the first of which mentions
    taxes, behind a database that returns both to every query. *)
Definition two_policies : list (QueryDocumentSnapshot PolicyDoc.t) :=
  [ policy_doc "p1" "Tax reform" "lower taxes" 70 30;
    policy_doc "p2" "School meals" "free lunch" 60 40 ].

Definition host_two_policies : Host :=
  host (fun _ => Ok []) (fun _ _ => Ok two_policies)
    (fun _ id => Ok {| snap_id := id; snap_exists := false |}).

(** A database whose document lookups fail and whose queries find
    nothing. *)
Definition host_lookup_down : Host :=
  host (fun _ => Ok []) (fun _ _ => Ok []) (fun _ _ => Throw unavailable).

End Examples.

Import Examples.

(* ================================================================= *)
(** ** Vocabulary of the statements *)

(** The two requests the code sends besides the policy query. *)
Definition fetch_parties : Request := GetDocs "parties" [].

Definition fetch_policy (id : string) : Request := GetDoc "policy" id.

(** [party] is what [toParty] makes of [doc], in some state of the
    console. *)
Definition converted_by (h : Host) (doc : QueryDocumentSnapshot PartyDoc.t)
  (party : Party.t) : Prop :=
  exists w w', DataUtils.toParty h doc w = (Ok party, w').

(** Two calls, the second made when the first has returned. *)
Definition twice {A : Type} (m : M A) : M (A * A) :=
  first <- m ;; second <- m ;; ret (first, second).

(** The cached parties, an unset cache read as the empty list (the
    [cachedParties || []] of [getPartyById]). *)
Definition cache (w : World) : list Party.t := or_array (cachedParties w) [].

(** The parameters with defaults of [fetchPoliciesWithFilterAndSort]. *)
Definition searchTerm_of (arg : option string) : string :=
  match arg with
  | Some s => s
  | None => ""
  end.

Definition limitCount_of (arg : option Z) : Z :=
  match arg with
  | Some n => n
  | None => 5%Z
  end.

(** The policies of a page, out of the converted documents. *)
Definition searched (h : Host) (searchTerm : string)
  (converted : list PolicyService.Policy) : list PolicyService.Policy :=
  if truthy_string (trim h searchTerm)
  then filter (PolicyService.matches h (toLowerCase h searchTerm)) converted
  else converted.

(** The path of the admin route. *)
Definition party_path : string := "/admin/party/:partyId/*".

(** A call of one of the three exported functions, and what a sequence
    of calls, each made when the one before has returned, leaves of the
    world.  Every call comes with the host that answers it, so that the
    database may change from one call to the next. *)
Inductive Call :=
| call_processPartiesData
| call_getPartyById (id : string)
| call_fetchPolicies (categoryFilter partyFilter sortMethod : string)
    (searchTerm lastDocumentId : option string) (limitCount : option Z).

Definition perform (h : Host) (c : Call) (w : World) : World :=
  match c with
  | call_processPartiesData => snd (DataUtils.processPartiesData h w)
  | call_getPartyById id => snd (DataUtils.getPartyById h id w)
  | call_fetchPolicies categoryFilter partyFilter sortMethod searchTerm
      lastDocumentId limitCount =>
      snd (PolicyService.fetchPoliciesWithFilterAndSort h categoryFilter
             partyFilter sortMethod searchTerm lastDocumentId limitCount w)
  end.

Fixpoint perform_all (calls : list (Host * Call)) (w : World) : World :=
  match calls with
  | [] => w
  | (h, c) :: calls' => perform_all calls' (perform h c w)
  end.

(** The calls that read the party cache. *)
Definition is_party_call (c : Call) : bool :=
  match c with
  | call_processPartiesData => true
  | call_getPartyById _ => true
  | call_fetchPolicies _ _ _ _ _ _ => false
  end.

(** The requests for the parties collection among [rs]. *)
Definition is_fetch_parties (r : Request) : bool :=
  match r with
  | GetDocs collection _ => String.eqb collection "parties"
  | GetDoc _ _ => false
  end.

Definition parties_fetches (rs : list Request) : nat :=
  length (filter is_fetch_parties rs).

(** The lookup [fetchPoliciesWithFilterAndSort] makes for its cursor:
    one request when the id is a string that is not empty. *)
Definition lookup_of (lastDocumentId : option string) : list Request :=
  match lastDocumentId with
  | Some lastId => if truthy_string lastId then [fetch_policy lastId] else []
  | None => []
  end.

(* ================================================================= *)
(** * Properties *)

(** ** Running the computations *)

Ltac run :=
  unfold bind, ret, throw, try_catch, lift, log, request, random,
    get_cachedParties, set_cachedParties in *;
  simpl in *.

Lemma console_only_refl (w : World) : console_only w w.
Proof. repeat split. Qed.

Lemma console_only_trans (w1 w2 w3 : World) :
  console_only w1 w2 -> console_only w2 w3 -> console_only w1 w3.
Proof.
  intros (C1 & R1 & D1) (C2 & R2 & D2).
  repeat split; congruence.
Qed.

(** ** The two colour tables *)

Lemma switch_case (cs : list (string * string)) (d x : string) :
  NoDup (map fst cs) ->
  forall v, In (x, v) cs -> DataUtils.switch cs d x = v.
Proof.
  induction cs as [|[k c] cs IH]; intros ND v Hin; simpl in *.
  - contradiction.
  - inversion ND as [|? ? Hk ND']; subst.
    destruct Hin as [Heq | Hin].
    + inversion Heq; subst. now rewrite String.eqb_refl.
    + destruct (String.eqb x k) eqn:E.
      * apply String.eqb_eq in E; subst.
        exfalso. apply Hk. apply (in_map fst) in Hin. exact Hin.
      * now apply IH.
Qed.

Lemma switch_default (cs : list (string * string)) (d x : string) :
  ~ In x (map fst cs) -> DataUtils.switch cs d x = d.
Proof.
  induction cs as [|[k c] cs IH]; intros Hx; simpl in *.
  - reflexivity.
  - destruct (String.eqb x k) eqn:E.
    + apply String.eqb_eq in E. exfalso. apply Hx. now left.
    + apply IH. intros Hin. apply Hx. now right.
Qed.

Lemma cases_NoDup : NoDup (map fst DataUtils.cases).
Proof.
  repeat (constructor; [simpl; intuition discriminate|]). constructor.
Qed.

Lemma partyColors_NoDup : NoDup (map fst PolicyService.partyColors).
Proof.
  repeat (constructor; [simpl; intuition discriminate|]). constructor.
Qed.

(** dataUtils: a listed name gets its colour, every other string the
    gray. *)
Lemma DataUtils_getPartyColor_listed (name colour : string) :
  In (name, colour) DataUtils.cases ->
  DataUtils.getPartyColor name = colour.
Proof. apply switch_case, cases_NoDup. Qed.

Lemma DataUtils_getPartyColor_unlisted (name : string) :
  ~ In name (map fst DataUtils.cases) ->
  DataUtils.getPartyColor name = "#808080".
Proof. apply switch_default. Qed.

Lemma find_key_some (literal : list (string * string)) (k v : string) :
  NoDup (map fst literal) -> In (k, v) literal ->
  find (fun kv => String.eqb (fst kv) k) literal = Some (k, v).
Proof.
  induction literal as [|[k' v'] l IH]; intros ND Hin; simpl in *.
  - contradiction.
  - inversion ND as [|? ? Hk ND']; subst.
    destruct Hin as [Heq | Hin].
    + inversion Heq; subst. now rewrite String.eqb_refl.
    + destruct (String.eqb k' k) eqn:E.
      * apply String.eqb_eq in E; subst.
        exfalso. apply Hk. apply (in_map fst) in Hin. exact Hin.
      * now apply IH.
Qed.

Lemma find_key_none (literal : list (string * string)) (k : string) :
  ~ In k (map fst literal) ->
  find (fun kv => String.eqb (fst kv) k) literal = None.
Proof.
  induction literal as [|[k' v'] l IH]; intros Hk; simpl in *.
  - reflexivity.
  - destruct (String.eqb k' k) eqn:E.
    + apply String.eqb_eq in E. exfalso. apply Hk. now left.
    + apply IH. intros Hin. apply Hk. now right.
Qed.

(** policyService: a listed name gets its colour; a name that is neither
    listed nor inherited gets the gray; an inherited name gets the
    inherited member. *)
Lemma PolicyService_getPartyColor_listed (name colour : string) :
  In (name, colour) PolicyService.partyColors ->
  PolicyService.getPartyColor name = PolicyService.own_string colour.
Proof.
  intros Hin. unfold PolicyService.getPartyColor, PolicyService.get.
  rewrite (find_key_some _ _ _ partyColors_NoDup Hin). simpl.
  simpl in Hin.
  repeat (destruct Hin as [Hin | Hin]; [inversion Hin; reflexivity|]).
  contradiction.
Qed.

Lemma PolicyService_getPartyColor_unlisted (name : string) :
  ~ In name (map fst PolicyService.partyColors) ->
  ~ In name PolicyService.Object_prototype ->
  PolicyService.getPartyColor name = PolicyService.own_string "#808080".
Proof.
  intros Hk Hp. unfold PolicyService.getPartyColor, PolicyService.get.
  rewrite (find_key_none _ _ Hk).
  destruct (existsb (String.eqb name) PolicyService.Object_prototype) eqn:E.
  - apply existsb_exists in E. destruct E as (x & Hx & Heq).
    apply String.eqb_eq in Heq; subst. contradiction.
  - reflexivity.
Qed.

Lemma PolicyService_getPartyColor_inherited (name : string) :
  In name PolicyService.Object_prototype ->
  PolicyService.getPartyColor name = PolicyService.inherited name.
Proof.
  intros Hin. simpl in Hin.
  repeat (destruct Hin as [Hin | Hin]; [subst; reflexivity|]).
  contradiction.
Qed.

(** ** The conversions always return *)

(** [toParty] returns a party whose fields are the expressions of the
    object literal, and touches nothing but the console. *)
Lemma toParty_run (h : Host) (doc : QueryDocumentSnapshot PartyDoc.t)
  (w : World) :
  let data := doc_data doc in
  let total :=
    or_number (PartyDoc.supportCount data) 0
    + or_number (PartyDoc.oppositionCount data) 0 in
  exists p w',
    DataUtils.toParty h doc w = (Ok p, w')
    /\ console_only w w'
    /\ Party.id p = doc_id doc
    /\ Party.name p = PartyDoc.name data
    /\ Party.color p = DataUtils.getPartyColor_of (PartyDoc.name data)
    /\ Party.supportRate p =
         (if gt total 0
          then Math_round
                 (or_number (PartyDoc.supportCount data) 0 / total * 100)
          else 50%Z)
    /\ Party.opposeRate p = (100 - Party.supportRate p)%Z
    /\ Party.totalVotes p = or_number (Some total) 0
    /\ Party.members p = or_number (PartyDoc.memberCount data) 0
    /\ Party.keyPolicies p = or_array (PartyDoc.majorPolicies data) []
    /\ Party.description p =
         or_string (PartyDoc.overview data)
           (ToString (PartyDoc.name data)
            ++ "の政策と理念に基づいた政党です。").
Proof.
  intros data total.
  unfold DataUtils.toParty, DataUtils.getPartyImagePath. run.
  destruct (encodeURIComponent h (ToString (PartyDoc.name (doc_data doc))));
    eexists; eexists; (split; [reflexivity|]); simpl;
    repeat split; reflexivity.
Qed.

Lemma mapM_toParty_run (h : Host)
  (docs : list (QueryDocumentSnapshot PartyDoc.t)) (w : World) :
  exists parties w',
    mapM (DataUtils.toParty h) docs w = (Ok parties, w')
    /\ console_only w w'
    /\ map Party.id parties = map doc_id docs
    /\ Forall2 (converted_by h) docs parties.
Proof.
  revert w. induction docs as [|doc docs IH]; intros w; simpl.
  - exists [], w. repeat split. constructor.
  - destruct (toParty_run h doc w) as (p & w1 & E1 & F1 & Hid & _).
    destruct (IH w1) as (ps & w2 & E2 & F2 & Hids & Hall).
    exists (p :: ps), w2. unfold bind. rewrite E1, E2. simpl.
    split; [reflexivity|].
    split; [apply (console_only_trans _ _ _ F1 F2)|].
    split; [now rewrite Hid, Hids|].
    constructor; [now exists w, w1 | exact Hall].
Qed.

(** [convertToPolicyObject] returns a policy whose fields are the
    expressions of the object literal; it may draw a random number and
    touches nothing else. *)
Lemma convertToPolicyObject_run (h : Host) (id : string)
  (data : PolicyDoc.t) (w : World) :
  let support := or_number (PolicyDoc.SupportRate data) 50 in
  let oppose := or_number (PolicyDoc.NonSupportRate data) 50 in
  let total := support + oppose in
  exists p w',
    PolicyService.convertToPolicyObject h id data w = (Ok p, w')
    /\ cachedParties w' = cachedParties w
    /\ console w' = console w
    /\ requests w' = requests w
    /\ PolicyService.id p = id
    /\ PolicyService.title p =
         or_string (PolicyDoc.Title data) "不明なタイトル"
    /\ PolicyService.description p =
         or_string (PolicyDoc.Description data) "説明なし"
    /\ PolicyService.category p =
         or_string (PolicyService.first_field (PolicyDoc.AffectedFields data))
           "その他"
    /\ PolicyService.status p = or_string (PolicyDoc.Status data) "審議中"
    /\ PolicyService.proposedDate p =
         or_string (PolicyDoc.ProposedDate data) "2023年"
    /\ PolicyService.supportRate p =
         (if gt total 0 then Math_round (support / total * 100) else 50%Z)
    /\ PolicyService.opposeRate p =
         (if gt total 0 then Math_round (oppose / total * 100) else 50%Z)
    /\ PolicyService.totalVotes p = total
    /\ PolicyService.totalCommentCount p = PolicyDoc.totalCommentCount data
    /\ PolicyService.affectedFields p =
         or_array (PolicyDoc.AffectedFields data) []
    /\ PolicyService.keyPoints p = or_array (PolicyDoc.KeyPoints data) []
    /\ PolicyService.economicImpact p =
         or_string (PolicyDoc.EconomicImpact data) ""
    /\ PolicyService.lifeImpact p = or_string (PolicyDoc.LifeImpact data) ""
    /\ PolicyService.politicalParties p =
         or_array
           (option_map
              (map (fun party =>
                      {| PolicyService.partyName := PolicyDoc.PartyName party;
                         PolicyService.claims := PolicyDoc.Claims party |}))
              (PolicyDoc.PoliticalParties data))
           []
    /\ PolicyService.proposingParty p =
         match PolicyService.politicalParties p with
         | first :: _ =>
             {| PolicyService.name := PolicyService.partyName first;
                PolicyService.color :=
                  PolicyService.getPartyColor
                    (ToString (PolicyService.partyName first)) |}
         | [] =>
             {| PolicyService.name := Some "不明";
                PolicyService.color := PolicyService.own_string "#808080" |}
         end.
Proof.
  intros support oppose total.
  unfold PolicyService.convertToPolicyObject. run.
  match goal with
  | |- context [if (?x >? 60)%Z then _ else _] =>
      destruct (x >? 60)%Z; [| destruct (x <? 40)%Z]
  end;
    eexists; eexists; (split; [reflexivity|]); simpl;
    repeat split; reflexivity.
Qed.

(** ** Colours (claims C6 and C10) *)

(** C6.  The claim: a name that is not listed in the static table gets
    the gray "#808080", in dataUtils and in policyService alike.  The
    policyService table is an object literal read with [partyColors[name]],
    so a name that the literal inherits, such as "constructor", is not
    listed and still does not get the gray: the inherited member is
    returned, and it ends up as the colour of a policy's proposing party.
    The [switch] of dataUtils gives the gray for the same name. *)
Theorem getPartyColor_constructor_is_not_gray :
  ~ In "constructor" (map fst PolicyService.partyColors)
  /\ PolicyService.getPartyColor "constructor"
     = PolicyService.inherited "constructor"
  /\ PolicyService.getPartyColor "constructor"
     <> PolicyService.own_string "#808080"
  /\ DataUtils.getPartyColor "constructor" = "#808080"
  /\ forall (h : Host) (id : string) (w : World),
       let data :=
         {| PolicyDoc.Title := None;
            PolicyDoc.Description := None;
            PolicyDoc.AffectedFields := None;
            PolicyDoc.Status := None;
            PolicyDoc.ProposedDate := None;
            PolicyDoc.SupportRate := None;
            PolicyDoc.NonSupportRate := None;
            PolicyDoc.totalCommentCount := None;
            PolicyDoc.KeyPoints := None;
            PolicyDoc.EconomicImpact := None;
            PolicyDoc.LifeImpact := None;
            PolicyDoc.PoliticalParties :=
              Some [ {| PolicyDoc.PartyName := Some "constructor";
                        PolicyDoc.Claims := None |} ] |} in
       exists p w',
         PolicyService.convertToPolicyObject h id data w = (Ok p, w')
         /\ PolicyService.color (PolicyService.proposingParty p)
            = PolicyService.inherited "constructor".
Proof.
  split; [simpl; intuition discriminate|].
  split; [reflexivity|].
  split; [discriminate|].
  split; [reflexivity|].
  intros h id w data.
  destruct (convertToPolicyObject_run h id data w)
    as (p & w' & E & _ & _ & _ & _ & _ & _ & _ & _ & _ & _ & _ & _ & _ & _
        & _ & _ & _ & Hpp & Hprop).
  exists p, w'. split; [exact E|].
  rewrite Hprop, Hpp. reflexivity.
Qed.

(** C10.  The two colour functions are not extensionally equal.  For
    "自由民主党", listed in both, dataUtils answers "#555555" and
    policyService "#E60012".  The key sets differ: "社民党" and "参政党"
    are the keys of dataUtils that policyService lacks, "社会民主党" is
    the key of policyService that dataUtils lacks.  So a party and the
    proposing party of a policy, both named "自由民主党", carry
    different colours. *)
Theorem getPartyColor_definitions_differ :
  DataUtils.getPartyColor "自由民主党" = "#555555"
  /\ PolicyService.getPartyColor "自由民主党"
     = PolicyService.own_string "#E60012"
  /\ In "自由民主党" (map fst DataUtils.cases)
  /\ In "自由民主党" (map fst PolicyService.partyColors)
  /\ (forall k,
        In k (map fst DataUtils.cases)
        /\ ~ In k (map fst PolicyService.partyColors)
        <-> k = "社民党" \/ k = "参政党")
  /\ (forall k,
        In k (map fst PolicyService.partyColors)
        /\ ~ In k (map fst DataUtils.cases)
        <-> k = "社会民主党")
  /\ ~ (forall name,
          PolicyService.getPartyColor name
          = PolicyService.own_string (DataUtils.getPartyColor name))
  /\ forall (h : Host) (w : World) (id : string)
       (doc : QueryDocumentSnapshot PartyDoc.t) (data : PolicyDoc.t)
       (claims : option string) (others : list PolicyDoc.PoliticalParty),
       PartyDoc.name (doc_data doc) = Some "自由民主党" ->
       PolicyDoc.PoliticalParties data
       = Some ({| PolicyDoc.PartyName := Some "自由民主党";
                  PolicyDoc.Claims := claims |} :: others) ->
       exists party w1 policy w2,
         DataUtils.toParty h doc w = (Ok party, w1)
         /\ PolicyService.convertToPolicyObject h id data w = (Ok policy, w2)
         /\ Party.name party
            = PolicyService.name (PolicyService.proposingParty policy)
         /\ Party.color party = "#555555"
         /\ PolicyService.color (PolicyService.proposingParty policy)
            = PolicyService.own_string "#E60012".
Proof.
  split; [reflexivity|].
  split; [reflexivity|].
  split; [simpl; tauto|].
  split; [simpl; tauto|].
  split.
  { intros k; split.
    - intros [Hin Hnot]. simpl in Hin, Hnot.
      repeat (destruct Hin as [Hin | Hin];
              [subst k; try (left; reflexivity); try (right; reflexivity);
               exfalso; apply Hnot; tauto|]).
      contradiction.
    - intros [-> | ->]; (split; [simpl; tauto | simpl; intuition discriminate]). }
  split.
  { intros k; split.
    - intros [Hin Hnot]. simpl in Hin, Hnot.
      repeat (destruct Hin as [Hin | Hin];
              [subst k; try reflexivity; exfalso; apply Hnot; tauto|]).
      contradiction.
    - intros ->; (split; [simpl; tauto | simpl; intuition discriminate]). }
  split.
  { intros Heq. specialize (Heq "自由民主党"). discriminate Heq. }
  intros h w id doc data claims others Hname Hparties.
  destruct (toParty_run h doc w)
    as (party & w1 & E1 & _ & _ & Hn & Hc & _).
  destruct (convertToPolicyObject_run h id data w)
    as (p & w2 & E2 & _ & _ & _ & _ & _ & _ & _ & _ & _ & _ & _ & _ & _ & _
        & _ & _ & _ & Hpp & Hprop).
  exists party, w1, p, w2.
  split; [exact E1|]. split; [exact E2|].
  rewrite Hprop, Hpp, Hparties, Hn, Hc, Hname. simpl.
  repeat split.
Qed.

(** A run of the last part of [getPartyColor_definitions_differ]. *)
Lemma getPartyColor_definitions_differ_witness :
  exists party w1 policy w2,
    DataUtils.toParty host_empty (party_doc "p1" "自由民主党" 1 2) initial
    = (Ok party, w1)
    /\ PolicyService.convertToPolicyObject host_empty "x"
         {| PolicyDoc.Title := None;
            PolicyDoc.Description := None;
            PolicyDoc.AffectedFields := None;
            PolicyDoc.Status := None;
            PolicyDoc.ProposedDate := None;
            PolicyDoc.SupportRate := None;
            PolicyDoc.NonSupportRate := None;
            PolicyDoc.totalCommentCount := None;
            PolicyDoc.KeyPoints := None;
            PolicyDoc.EconomicImpact := None;
            PolicyDoc.LifeImpact := None;
            PolicyDoc.PoliticalParties :=
              Some [ {| PolicyDoc.PartyName := Some "自由民主党";
                        PolicyDoc.Claims := None |} ] |} initial
       = (Ok policy, w2)
    /\ Party.name party
       = PolicyService.name (PolicyService.proposingParty policy)
    /\ Party.color party = "#555555"
    /\ PolicyService.color (PolicyService.proposingParty policy)
       = PolicyService.own_string "#E60012".
Proof.
  destruct getPartyColor_definitions_differ
    as (_ & _ & _ & _ & _ & _ & _ & H).
  apply (H host_empty initial "x" (party_doc "p1" "自由民主党" 1 2) _
           None []); reflexivity.
Defined.

(** ** Rates (claim C2) *)

(** C2.  The claim: the normalized support and oppose rates sum to
    exactly 100 whenever the total is positive.  [processPartiesData]
    takes the oppose rate as 100 minus the support rate; but
    [convertToPolicyObject] rounds the two shares separately, and for a
    policy document with SupportRate 1 and NonSupportRate 7 the total is
    8, the shares are 12.5 and 87.5, and the rates are 13 and 88: they
    sum to 101. *)
Theorem convertToPolicyObject_rates_sum_to_101 :
  forall (h : Host) (id : string) (w : World),
  exists p w',
    PolicyService.convertToPolicyObject h id
      (doc_data (policy_doc id "Tax reform" "lower taxes" 1 7)) w
    = (Ok p, w')
    /\ gt (PolicyService.totalVotes p) 0 = true
    /\ PolicyService.supportRate p = 13%Z
    /\ PolicyService.opposeRate p = 88%Z
    /\ (PolicyService.supportRate p + PolicyService.opposeRate p)%Z = 101%Z.
Proof.
  intros h id w.
  destruct (convertToPolicyObject_run h id
              (doc_data (policy_doc id "Tax reform" "lower taxes" 1 7)) w)
    as (p & w' & E & _ & _ & _ & _ & _ & _ & _ & _ & _ & Hs & Ho & Ht & _).
  exists p, w'. split; [exact E|].
  rewrite Hs, Ho, Ht. repeat split.
Qed.

Lemma gt_spec (x y : number) : gt x y = true <-> y < x.
Proof.
  unfold gt. rewrite negb_true_iff, <- not_true_iff_false, Qle_bool_iff.
  split; [apply Qnot_le_lt | apply Qlt_not_le].
Qed.




(** ** Defaults (claims C5 and C9) *)

Lemma or_string_missing (d : string) : or_string None d = d.
Proof. reflexivity. Qed.

Lemma or_string_empty (d : string) : or_string (Some "") d = d.
Proof. reflexivity. Qed.

Lemma or_number_missing (d : number) : or_number None d = d.
Proof. reflexivity. Qed.

Lemma or_number_zero (x d : number) : x == 0 -> or_number (Some x) d = d.
Proof.
  intros Hx. unfold or_number, truthy_number.
  apply Qeq_bool_iff in Hx. now rewrite Hx.
Qed.

(** C5.  A document with an optional field missing is converted with the
    default of that field.  For a policy: the title "不明なタイトル", the
    description "説明なし", the category "その他" and no affected field,
    the status "審議中", the proposed date "2023年", the rates 50 and 50
    (of a total of 100) when both SupportRate and NonSupportRate are
    missing, no key point, the empty economic and life impacts, no
    political party and the proposing party "不明" in gray.  For a party:
    the rates 50 and 50 of no vote when both counts are missing, no
    member, no key policy, and the description generated from the
    name.  (The comment count of a policy and the name of a party are
    copied as they are: the code gives them no default.) *)
Theorem missing_fields_get_their_defaults (h : Host) (w : World) :
  (forall (id : string) (data : PolicyDoc.t),
     exists p w',
       PolicyService.convertToPolicyObject h id data w = (Ok p, w')
       /\ (PolicyDoc.Title data = None ->
           PolicyService.title p = "不明なタイトル")
       /\ (PolicyDoc.Description data = None ->
           PolicyService.description p = "説明なし")
       /\ (PolicyDoc.AffectedFields data = None ->
           PolicyService.category p = "その他"
           /\ PolicyService.affectedFields p = [])
       /\ (PolicyDoc.Status data = None ->
           PolicyService.status p = "審議中")
       /\ (PolicyDoc.ProposedDate data = None ->
           PolicyService.proposedDate p = "2023年")
       /\ (PolicyDoc.SupportRate data = None ->
           PolicyDoc.NonSupportRate data = None ->
           PolicyService.supportRate p = 50%Z
           /\ PolicyService.opposeRate p = 50%Z
           /\ PolicyService.totalVotes p == 100)
       /\ (PolicyDoc.KeyPoints data = None ->
           PolicyService.keyPoints p = [])
       /\ (PolicyDoc.EconomicImpact data = None ->
           PolicyService.economicImpact p = "")
       /\ (PolicyDoc.LifeImpact data = None ->
           PolicyService.lifeImpact p = "")
       /\ (PolicyDoc.PoliticalParties data = None ->
           PolicyService.politicalParties p = []
           /\ PolicyService.proposingParty p
              = {| PolicyService.name := Some "不明";
                   PolicyService.color :=
                     PolicyService.own_string "#808080" |})
       /\ PolicyService.totalCommentCount p
          = PolicyDoc.totalCommentCount data)
  /\ (forall doc : QueryDocumentSnapshot PartyDoc.t,
        exists p w',
          DataUtils.toParty h doc w = (Ok p, w')
          /\ (PartyDoc.supportCount (doc_data doc) = None ->
              PartyDoc.oppositionCount (doc_data doc) = None ->
              Party.supportRate p = 50%Z
              /\ Party.opposeRate p = 50%Z
              /\ Party.totalVotes p == 0)
          /\ (PartyDoc.memberCount (doc_data doc) = None ->
              Party.members p = 0)
          /\ (PartyDoc.majorPolicies (doc_data doc) = None ->
              Party.keyPolicies p = [])
          /\ (PartyDoc.overview (doc_data doc) = None ->
              Party.description p
              = ToString (PartyDoc.name (doc_data doc))
                ++ "の政策と理念に基づいた政党です。")
          /\ Party.name p = PartyDoc.name (doc_data doc)).
Proof.
  split.
  - intros id data.
    destruct (convertToPolicyObject_run h id data w)
      as (p & w' & E & _ & _ & _ & _ & Hti & Hde & Hca & Hst & Hda & Hs & Ho
          & Ht & Htc & Haf & Hkp & Hec & Hli & Hpp & Hprop).
    exists p, w'. split; [exact E|].
    repeat split; [.. | exact Htc].
    + intros H0. now rewrite Hti, H0.
    + intros H0. now rewrite Hde, H0.
    + now rewrite Hca, H.
    + now rewrite Haf, H.
    + intros H0. now rewrite Hst, H0.
    + intros H0. now rewrite Hda, H0.
    + rewrite Hs, H, H0. reflexivity.
    + rewrite Ho, H, H0. reflexivity.
    + rewrite Ht, H, H0. reflexivity.
    + intros H0. now rewrite Hkp, H0.
    + intros H0. now rewrite Hec, H0.
    + intros H0. now rewrite Hli, H0.
    + now rewrite Hpp, H.
    + rewrite Hprop, Hpp, H. reflexivity.
  - intros doc.
    destruct (toParty_run h doc w)
      as (p & w' & E & _ & _ & Hn & _ & Hs & Ho & Ht & Hm & Hk & Hd).
    exists p, w'. split; [exact E|].
    repeat split; [.. | exact Hn].
    + rewrite Hs, H, H0. reflexivity.
    + rewrite Ho, Hs, H, H0. reflexivity.
    + rewrite Ht, H, H0. reflexivity.
    + intros H0. now rewrite Hm, H0.
    + intros H0. now rewrite Hk, H0.
    + intros H0. now rewrite Hd, H0.
Qed.

(** The documents without any field, converted. *)
Lemma missing_fields_get_their_defaults_witness :
  (exists p w',
     PolicyService.convertToPolicyObject host_empty "p1" empty_policy initial
     = (Ok p, w')
     /\ PolicyService.title p = "不明なタイトル"
     /\ PolicyService.supportRate p = 50%Z
     /\ PolicyService.opposeRate p = 50%Z)
  /\ (exists p w',
        DataUtils.toParty host_empty
          {| doc_id := "a"; doc_data := empty_party |} initial
        = (Ok p, w')
        /\ Party.supportRate p = 50%Z
        /\ Party.members p = 0
        /\ Party.description p = "undefinedの政策と理念に基づいた政党です。").
Proof.
  destruct (missing_fields_get_their_defaults host_empty initial)
    as [Hpolicy Hparty].
  split.
  - destruct (Hpolicy "p1" empty_policy)
      as (p & w' & E & Hti & _ & _ & _ & _ & Hrates & _).
    exists p, w'. split; [exact E|].
    split; [apply Hti; reflexivity|].
    destruct Hrates as (Hs & Ho & _); try reflexivity.
    split; assumption.
  - destruct (Hparty {| doc_id := "a"; doc_data := empty_party |})
      as (p & w' & E & Hrates & Hm & _ & Hd).
    exists p, w'. split; [exact E|].
    destruct Hrates as (Hs & _ & _); try reflexivity.
    split; [exact Hs|].
    split; [apply Hm; reflexivity|].
    apply Hd; reflexivity.
Defined.

(** C9.  The defaults are substituted for every falsy value of a field,
    not only for a missing one.  A policy document whose Title is the
    empty string is converted with the title "不明なタイトル"; one whose
    SupportRate is 0 is normalized as if its SupportRate were 50 (the
    total is 50 plus the oppose value, the support rate is the rounded
    share of 50 in it); a party document whose overview is the empty
    string receives the generated description. *)
Theorem falsy_fields_get_their_defaults (h : Host) (w : World) :
  (forall (id : string) (data : PolicyDoc.t),
     exists p w',
       PolicyService.convertToPolicyObject h id data w = (Ok p, w')
       /\ (PolicyDoc.Title data = Some "" ->
           PolicyService.title p = "不明なタイトル")
       /\ (forall zero : number,
             PolicyDoc.SupportRate data = Some zero -> zero == 0 ->
             let oppose := or_number (PolicyDoc.NonSupportRate data) 50 in
             PolicyService.totalVotes p = 50 + oppose
             /\ PolicyService.supportRate p
                = (if gt (50 + oppose) 0
                   then Math_round (50 / (50 + oppose) * 100)
                   else 50%Z)))
  /\ (forall doc : QueryDocumentSnapshot PartyDoc.t,
        exists p w',
          DataUtils.toParty h doc w = (Ok p, w')
          /\ (PartyDoc.overview (doc_data doc) = Some "" ->
              Party.description p
              = ToString (PartyDoc.name (doc_data doc))
                ++ "の政策と理念に基づいた政党です。")).
Proof.
  split.
  - intros id data.
    destruct (convertToPolicyObject_run h id data w)
      as (p & w' & E & _ & _ & _ & _ & Hti & _ & _ & _ & _ & Hs & _ & Ht & _).
    exists p, w'. split; [exact E|].
    split.
    + intros H0. now rewrite Hti, H0.
    + intros zero Hz Hzero oppose.
      rewrite Hs, Ht, Hz, (or_number_zero _ _ Hzero).
      split; reflexivity.
  - intros doc.
    destruct (toParty_run h doc w)
      as (p & w' & E & _ & _ & _ & _ & _ & _ & _ & _ & _ & Hd).
    exists p, w'. split; [exact E|].
    intros H0. now rewrite Hd, H0.
Qed.

(** A policy with an empty title and the rates 0 and 150: the title is
    the default one, and the support rate is 25, the share of 50 in
    200.  A party with an empty overview. *)
Lemma falsy_fields_get_their_defaults_witness :
  (exists p w',
     PolicyService.convertToPolicyObject host_empty "p1"
       (doc_data (policy_doc "p1" "" "d" 0 150)) initial
     = (Ok p, w')
     /\ PolicyService.title p = "不明なタイトル"
     /\ PolicyService.totalVotes p = 50 + 150
     /\ PolicyService.supportRate p = 25%Z)
  /\ (exists p w',
        DataUtils.toParty host_empty
          {| doc_id := "a";
             doc_data :=
               {| PartyDoc.name := Some "K";
                  PartyDoc.supportCount := None;
                  PartyDoc.oppositionCount := None;
                  PartyDoc.memberCount := None;
                  PartyDoc.majorPolicies := None;
                  PartyDoc.overview := Some "" |} |} initial
        = (Ok p, w')
        /\ Party.description p = "Kの政策と理念に基づいた政党です。").
Proof.
  destruct (falsy_fields_get_their_defaults host_empty initial)
    as [Hpolicy Hparty].
  split.
  - destruct (Hpolicy "p1" (doc_data (policy_doc "p1" "" "d" 0 150)))
      as (p & w' & E & Hti & Hrate).
    exists p, w'. split; [exact E|].
    split; [apply Hti; reflexivity|].
    destruct (Hrate 0 eq_refl (Qeq_refl 0)) as [Ht Hs].
    split; [exact Ht | exact Hs].
  - destruct (Hparty
                {| doc_id := "a";
                   doc_data :=
                     {| PartyDoc.name := Some "K";
                        PartyDoc.supportCount := None;
                        PartyDoc.oppositionCount := None;
                        PartyDoc.memberCount := None;
                        PartyDoc.majorPolicies := None;
                        PartyDoc.overview := Some "" |} |})
      as (p & w' & E & Hd).
    exists p, w'. split; [exact E|].
    apply Hd; reflexivity.
Defined.

(** ** The party cache (claims C3, C4 and C7) *)

(** A call with the cache set returns it and does nothing else. *)
Lemma processPartiesData_hit (h : Host) (w : World) (parties : list Party.t) :
  cachedParties w = Some parties ->
  DataUtils.processPartiesData h w = (Ok parties, w).
Proof.
  intros Hc. unfold DataUtils.processPartiesData. run. now rewrite Hc.
Qed.

(** A call with the cache unset whose fetch succeeds: one request, the
    converted documents are stored and returned. *)
Lemma processPartiesData_miss (h : Host) (w : World)
  (docs : list (QueryDocumentSnapshot PartyDoc.t)) :
  cachedParties w = None ->
  parties_getDocs h (length (requests w)) = Ok docs ->
  exists parties w',
    DataUtils.processPartiesData h w = (Ok parties, w')
    /\ cachedParties w' = Some parties
    /\ requests w' = (requests w ++ [fetch_parties])%list
    /\ draws w' = draws w
    /\ map Party.id parties = map doc_id docs
    /\ Forall2 (converted_by h) docs parties.
Proof.
  intros Hc Hdb. unfold DataUtils.processPartiesData. run.
  rewrite Hc, Hdb.
  match goal with
  | |- context [mapM (DataUtils.toParty h) docs ?w0] =>
      destruct (mapM_toParty_run h docs w0)
        as (parties & w1 & E & (_ & R & D) & Hids & Hall)
  end.
  rewrite E. simpl in *.
  eexists; eexists. split; [reflexivity|]. simpl.
  repeat split; assumption.
Qed.

(** A call with the cache unset whose fetch fails: one request, the
    error is logged, the cache stays unset and the empty list is
    returned. *)
Lemma processPartiesData_failure (h : Host) (w : World) (e : Error) :
  cachedParties w = None ->
  parties_getDocs h (length (requests w)) = Throw e ->
  DataUtils.processPartiesData h w
  = (Ok [],
     {| cachedParties := None;
        console :=
          (console w
           ++ [console_error "Firestoreからの政党データ取得に失敗しました:" e])%list;
        requests := (requests w ++ [fetch_parties])%list;
        draws := draws w |}).
Proof.
  intros Hc Hdb. unfold DataUtils.processPartiesData. run.
  rewrite Hc, Hdb. simpl. rewrite Hc. reflexivity.
Qed.

(** C3, as stated, fails: when the database is down, the first call
    fetches, logs the failure and leaves the cache unset, and the second
    call fetches again.  Two requests, not one.  (And a pair of calls
    made once the cache is set sends no request at all.) *)
Lemma processPartiesData_twice_fetches_twice_when_down :
  cachedParties initial = None
  /\ fst (twice (DataUtils.processPartiesData host_down) initial)
     = Ok ([], [])
  /\ requests (snd (twice (DataUtils.processPartiesData host_down) initial))
     = [fetch_parties; fetch_parties]
  /\ cachedParties
       (snd (twice (DataUtils.processPartiesData host_down) initial))
     = None
  /\ requests
       (snd (twice (DataUtils.processPartiesData host_empty)
               (snd (DataUtils.processPartiesData host_empty initial))))
     = requests (snd (DataUtils.processPartiesData host_empty initial)).
Proof. repeat split. Qed.

(** C3, amended.  For two consecutive calls of [processPartiesData] that
    start with the cache unset and whose fetch succeeds, exactly one
    request is sent to the database: the first call fetches the
    documents, converts each of them, stores the list in the cache and
    returns it; the second call returns the cached list and changes
    nothing. *)
Theorem processPartiesData_twice_fetches_once (h : Host) (w : World)
  (docs : list (QueryDocumentSnapshot PartyDoc.t)) :
  cachedParties w = None ->
  parties_getDocs h (length (requests w)) = Ok docs ->
  exists parties w1,
    DataUtils.processPartiesData h w = (Ok parties, w1)
    /\ Forall2 (converted_by h) docs parties
    /\ cachedParties w1 = Some parties
    /\ requests w1 = (requests w ++ [fetch_parties])%list
    /\ DataUtils.processPartiesData h w1 = (Ok parties, w1)
    /\ twice (DataUtils.processPartiesData h) w = (Ok (parties, parties), w1).
Proof.
  intros Hc Hdb.
  destruct (processPartiesData_miss h w docs Hc Hdb)
    as (parties & w1 & E1 & Hc1 & R1 & _ & _ & Hall).
  pose proof (processPartiesData_hit h w1 parties Hc1) as E2.
  exists parties, w1.
  repeat split; try assumption.
  unfold twice, bind, ret. now rewrite E1, E2.
Qed.

(** One party in the collection, two calls in a fresh process. *)
Lemma processPartiesData_twice_fetches_once_witness :
  exists parties w1,
    DataUtils.processPartiesData
      (host (fun _ => Ok [party_doc "ldp" "自由民主党" 1 2])
         (fun _ _ => Ok []) (fun _ _ => Throw unavailable))
      initial
    = (Ok parties, w1)
    /\ length parties = 1%nat
    /\ requests w1 = [fetch_parties]
    /\ twice
         (DataUtils.processPartiesData
            (host (fun _ => Ok [party_doc "ldp" "自由民主党" 1 2])
               (fun _ _ => Ok []) (fun _ _ => Throw unavailable)))
         initial
       = (Ok (parties, parties), w1).
Proof.
  destruct (processPartiesData_twice_fetches_once
              (host (fun _ => Ok [party_doc "ldp" "自由民主党" 1 2])
                 (fun _ _ => Ok []) (fun _ _ => Throw unavailable))
              initial [party_doc "ldp" "自由民主党" 1 2] eq_refl eq_refl)
    as (parties & w1 & E & Hall & _ & R & _ & T).
  exists parties, w1.
  split; [exact E|].
  split; [symmetry; apply (Forall2_length Hall)|].
  split; [exact R | exact T].
Defined.

(** [processPartiesData] never throws. *)
Lemma processPartiesData_returns (h : Host) (w : World) :
  exists parties w', DataUtils.processPartiesData h w = (Ok parties, w').
Proof.
  destruct (cachedParties w) as [parties|] eqn:Hc.
  - exists parties, w. now apply processPartiesData_hit.
  - destruct (parties_getDocs h (length (requests w))) as [docs|e] eqn:Hdb.
    + destruct (processPartiesData_miss h w docs Hc Hdb)
        as (parties & w' & E & _).
      now exists parties, w'.
    + eexists; eexists. apply (processPartiesData_failure h w e Hc Hdb).
Qed.

(** C7.  [getPartyById] first populates the cache when it is absent (by
    a call of [processPartiesData], and only then); it returns the
    party of the cache whose id is the given one, and no result exactly
    when the cache holds no party with that id. *)
Theorem getPartyById_finds_by_id (h : Host) (id : string) (w : World) :
  exists found w',
    DataUtils.getPartyById h id w = (Ok found, w')
    /\ (cachedParties w <> None -> w' = w)
    /\ (cachedParties w = None ->
        w' = snd (DataUtils.processPartiesData h w)
        /\ requests w' = (requests w ++ [fetch_parties])%list)
    /\ (forall party, found = Some party ->
        Party.id party = id /\ In party (cache w'))
    /\ (found = None <->
        forall party, In party (cache w') -> Party.id party <> id)
    /\ ((exists party, In party (cache w') /\ Party.id party = id) ->
        exists party, found = Some party /\ Party.id party = id).
Proof.
  assert (Hfind : forall ps : list Party.t,
             let found :=
               find (fun party => String.eqb (Party.id party) id) ps in
             (forall party, found = Some party ->
                            Party.id party = id /\ In party ps)
             /\ (found = None <->
                 forall party, In party ps -> Party.id party <> id)
             /\ ((exists party, In party ps /\ Party.id party = id) ->
                 exists party, found = Some party /\ Party.id party = id)).
  { intros ps found. subst found.
    split; [|split].
    - intros party Hf. apply find_some in Hf. destruct Hf as [Hin Heq].
      apply String.eqb_eq in Heq. now split.
    - split.
      + intros Hnone party Hin Hid.
        apply (find_none _ _ Hnone) in Hin.
        apply String.eqb_neq in Hin. contradiction.
      + intros Hall.
        destruct (find _ ps) as [party|] eqn:Hf; [|reflexivity].
        apply find_some in Hf. destruct Hf as [Hin Heq].
        apply String.eqb_eq in Heq. exfalso. now apply (Hall party).
    - intros (party & Hin & Hid).
      destruct (find _ ps) as [party'|] eqn:Hf.
      + exists party'. split; [reflexivity|].
        apply find_some in Hf. destruct Hf as [_ Heq].
        now apply String.eqb_eq in Heq.
      + apply (find_none _ _ Hf) in Hin.
        apply String.eqb_neq in Hin. contradiction. }
  unfold DataUtils.getPartyById.
  destruct (cachedParties w) as [parties|] eqn:Hc.
  - exists (find (fun party => String.eqb (Party.id party) id) parties), w.
    split; [run; now rewrite Hc; simpl; rewrite Hc|].
    split; [reflexivity|].
    split; [discriminate|].
    unfold cache. rewrite Hc. simpl. apply Hfind.
  - destruct (processPartiesData_returns h w) as (parties & w' & E).
    exists (find (fun party => String.eqb (Party.id party) id) (cache w')), w'.
    split; [run; now rewrite Hc; simpl; rewrite E|].
    split; [intros Hn; now contradiction Hn|].
    split.
    + intros _. rewrite E. split; [reflexivity|].
      destruct (parties_getDocs h (length (requests w))) as [docs|e] eqn:Hdb.
      * destruct (processPartiesData_miss h w docs Hc Hdb)
          as (ps & w1 & E1 & _ & R & _).
        rewrite E in E1. now inversion E1; subst.
      * rewrite (processPartiesData_failure h w e Hc Hdb) in E.
        now inversion E; subst.
    + apply Hfind.
Qed.

(** A lookup in a fresh process whose collection holds two parties. *)
Lemma getPartyById_finds_by_id_witness :
  exists found w',
    DataUtils.getPartyById
      (host (fun _ => Ok [party_doc "a" "A" 1 1; party_doc "b" "B" 3 1])
         (fun _ _ => Ok []) (fun _ _ => Throw unavailable))
      "b" initial
    = (Ok found, w')
    /\ requests w' = [fetch_parties]
    /\ exists party, found = Some party /\ Party.id party = "b".
Proof.
  destruct (getPartyById_finds_by_id
              (host (fun _ => Ok [party_doc "a" "A" 1 1; party_doc "b" "B" 3 1])
                 (fun _ _ => Ok []) (fun _ _ => Throw unavailable))
              "b" initial)
    as (found & w' & E & _ & Hpop & _ & _ & Hsome).
  exists found, w'.
  split; [exact E|].
  destruct (Hpop eq_refl) as [Hw' R].
  split; [exact R|].
  apply Hsome. rewrite Hw'. vm_compute.
  eexists. split; [right; left; reflexivity | reflexivity].
Defined.

(** ** The policy query (claims C1 and C4) *)

(** The cursor lookup never throws.  Without a usable id nothing
    happens; otherwise one document is requested, and the answer
    decides: a snapshot that exists becomes a [startAfter] constraint, a
    missing one is warned about, a failure is logged as an error. *)
Lemma cursor_run (h : Host) (lastDocumentId : option string) (w : World) :
  exists after w',
    PolicyService.cursor h lastDocumentId w = (Ok after, w')
    /\ cachedParties w' = cachedParties w
    /\ draws w' = draws w
    /\ match lastDocumentId with
       | Some lastId =>
           if truthy_string lastId then
             requests w' = (requests w ++ [fetch_policy lastId])%list
             /\ match policy_getDoc h (length (requests w)) lastId with
                | Ok lastDoc =>
                    if snap_exists lastDoc
                    then after = [startAfter lastDoc]
                         /\ console w' = console w
                    else after = []
                         /\ console w'
                            = (console w
                               ++ [console_warn
                                     ("最後のドキュメントID " ++ lastId
                                      ++ " が見つかりません")])%list
                | Throw e =>
                    after = []
                    /\ console w'
                       = (console w
                          ++ [console_error "ドキュメント取得エラー:" e])%list
                end
           else after = [] /\ w' = w
       | None => after = [] /\ w' = w
       end.
Proof.
  unfold PolicyService.cursor.
  destruct lastDocumentId as [lastId|]; [|exists [], w; now repeat split].
  destruct (truthy_string lastId); [|exists [], w; now repeat split].
  run.
  destruct (policy_getDoc h (length (requests w)) lastId) as [lastDoc|e].
  - destruct (snap_exists lastDoc);
      eexists; eexists; (split; [reflexivity|]); simpl; now repeat split.
  - eexists; eexists; (split; [reflexivity|]); simpl; now repeat split.
Qed.

(** Converting the documents of a page never throws, keeps their order
    and ids, and touches only the count of random draws. *)
Lemma mapM_convert_run (h : Host)
  (docs : list (QueryDocumentSnapshot PolicyDoc.t)) (w : World) :
  exists converted w',
    mapM (fun doc =>
            PolicyService.convertToPolicyObject h (doc_id doc) (doc_data doc))
      docs w
    = (Ok converted, w')
    /\ cachedParties w' = cachedParties w
    /\ console w' = console w
    /\ requests w' = requests w
    /\ map PolicyService.id converted = map doc_id docs
    /\ length converted = length docs.
Proof.
  revert w. induction docs as [|doc docs IH]; intros w; simpl.
  - exists [], w. now repeat split.
  - destruct (convertToPolicyObject_run h (doc_id doc) (doc_data doc) w)
      as (p & w1 & E1 & C1 & L1 & R1 & Hid & _).
    destruct (IH w1) as (ps & w2 & E2 & C2 & L2 & R2 & Hids & Hlen).
    exists (p :: ps), w2. unfold bind. rewrite E1, E2. simpl.
    repeat split; try congruence.
Qed.

(** What a call of [fetchPoliciesWithFilterAndSort] does, by the answer
    of the database to its query. *)
Lemma fetchPoliciesWithFilterAndSort_run (h : Host)
  (categoryFilter partyFilter sortMethod : string)
  (searchTerm : option string) (lastDocumentId : option string)
  (limitCount : option Z) (w : World) :
  exists after w1,
    PolicyService.cursor h lastDocumentId w = (Ok after, w1)
    /\ let conditions :=
         (PolicyService.filters categoryFilter partyFilter sortMethod
          ++ after ++ [limit (limitCount_of limitCount)])%list in
       match policy_getDocs h (length (requests w1)) conditions with
       | Ok docs =>
           exists converted w2,
             PolicyService.fetchPoliciesWithFilterAndSort h categoryFilter
               partyFilter sortMethod searchTerm lastDocumentId limitCount w
             = (Ok {| PolicyService.policies :=
                        searched h (searchTerm_of searchTerm) converted;
                      PolicyService.lastDocumentId :=
                        option_map doc_id
                          (index docs (Z.of_nat (length docs) - 1));
                      PolicyService.hasMore :=
                        (Z.of_nat
                           (length
                              (searched h (searchTerm_of searchTerm)
                                 converted))
                         =? limitCount_of limitCount)%Z |},
                w2)
             /\ map PolicyService.id converted = map doc_id docs
             /\ length converted = length docs
             /\ cachedParties w2 = cachedParties w
             /\ console w2 = console w1
             /\ requests w2
                = (requests w1 ++ [GetDocs "policy" conditions])%list
       | Throw e =>
           PolicyService.fetchPoliciesWithFilterAndSort h categoryFilter
             partyFilter sortMethod searchTerm lastDocumentId limitCount w
           = (Throw e,
              {| cachedParties := cachedParties w;
                 console :=
                   (console w1 ++ [console_error "政策データ取得エラー:" e])%list;
                 requests :=
                   (requests w1 ++ [GetDocs "policy" conditions])%list;
                 draws := draws w |})
       end.
Proof.
  destruct (cursor_run h lastDocumentId w) as (after & w1 & E & C & D & _).
  exists after, w1. split; [exact E|].
  intros conditions.
  destruct (policy_getDocs h (length (requests w1)) conditions)
    as [docs|e] eqn:Hq.
  - destruct (mapM_convert_run h docs
                {| cachedParties := cachedParties w1;
                   console := console w1;
                   requests :=
                     (requests w1 ++ [GetDocs "policy" conditions])%list;
                   draws := draws w1 |})
      as (converted & w2 & E2 & C2 & L2 & R2 & Hids & Hlen).
    exists converted, w2.
    split; [|simpl in *; repeat split; congruence].
    unfold PolicyService.fetchPoliciesWithFilterAndSort.
    fold (searchTerm_of searchTerm) (limitCount_of limitCount).
    unfold try_catch, bind. rewrite E.
    unfold request. fold conditions. rewrite Hq, E2. reflexivity.
  - unfold PolicyService.fetchPoliciesWithFilterAndSort.
    fold (limitCount_of limitCount).
    unfold try_catch, bind. rewrite E.
    unfold request. fold conditions. rewrite Hq.
    unfold log, throw. simpl. now rewrite C, D.
Qed.

(** C1.  The claim: with page size N, [hasMore] is true if and only if
    the query returned exactly N raw documents, whatever the search
    filter keeps.  The code compares N with the number of policies left
    after the search filter.  Here the query, limited to 2, returns 2
    documents; the search term "tax" keeps one of them; [hasMore] is
    false, while the cursor returned is the id of the second raw
    document. *)
Theorem fetchPolicies_hasMore_false_on_a_full_raw_page :
  exists page w',
    PolicyService.fetchPoliciesWithFilterAndSort host_two_policies
      "all" "all" "supportDesc" (Some "tax") None (Some 2%Z) initial
    = (Ok page, w')
    /\ requests w' = [GetDocs "policy" [orderBy "SupportRate" desc; limit 2]]
    /\ policy_getDocs host_two_policies 0
         [orderBy "SupportRate" desc; limit 2]
       = Ok two_policies
    /\ length two_policies = 2%nat
    /\ map PolicyService.id (PolicyService.policies page) = ["p1"]
    /\ PolicyService.lastDocumentId page = Some "p2"
    /\ PolicyService.hasMore page = false.
Proof.
  eexists; eexists. split; [vm_compute; reflexivity|].
  repeat split.
Qed.



(** Without a search term (one that is empty once trimmed), [hasMore]
    is true exactly when the query returned as many documents as the
    page size. *)
Lemma hasMore_without_search_counts_the_documents (h : Host)
  (categoryFilter partyFilter sortMethod : string)
  (searchTerm : option string) (lastDocumentId : option string)
  (limitCount : option Z) (w : World) :
  truthy_string (trim h (searchTerm_of searchTerm)) = false ->
  exists after w1,
    PolicyService.cursor h lastDocumentId w = (Ok after, w1)
    /\ forall docs,
         policy_getDocs h (length (requests w1))
           (PolicyService.filters categoryFilter partyFilter sortMethod
            ++ after ++ [limit (limitCount_of limitCount)])%list
         = Ok docs ->
         exists page w2,
           PolicyService.fetchPoliciesWithFilterAndSort h categoryFilter
             partyFilter sortMethod searchTerm lastDocumentId limitCount w
           = (Ok page, w2)
           /\ (PolicyService.hasMore page = true
               <-> Z.of_nat (length docs) = limitCount_of limitCount).
Proof.
  intros Hblank.
  destruct (fetchPoliciesWithFilterAndSort_run h categoryFilter partyFilter
              sortMethod searchTerm lastDocumentId limitCount w)
    as (after & w1 & E & Hq).
  exists after, w1. split; [exact E|].
  intros docs Hdocs. simpl in Hq. rewrite Hdocs in Hq.
  destruct Hq as (converted & w2 & Hrun & _ & Hlen & _).
  eexists; eexists. split; [exact Hrun|]. simpl.
  unfold searched. rewrite Hblank, Hlen. apply Z.eqb_eq.
Qed.

Lemma hasMore_without_search_counts_the_documents_witness :
  exists page w2,
    PolicyService.fetchPoliciesWithFilterAndSort host_two_policies
      "all" "all" "supportDesc" (Some " ") None (Some 2%Z) initial
    = (Ok page, w2)
    /\ (PolicyService.hasMore page = true <-> Z.of_nat 2 = 2%Z).
Proof.
  destruct (hasMore_without_search_counts_the_documents host_two_policies
              "all" "all" "supportDesc" (Some " ") None (Some 2%Z) initial
              eq_refl)
    as (after & w1 & E & H).
  vm_compute in E. inversion E; subst.
  apply (H two_policies). reflexivity.
Defined.

(** C4, as stated, fails for one of the two database operations of
    [fetchPoliciesWithFilterAndSort]: when the lookup of the cursor
    document fails, the error is logged and not raised again; the query
    runs without a cursor and the call returns its page. *)
Lemma fetchPolicies_swallows_a_failed_cursor_lookup :
  policy_getDoc host_lookup_down 0 "p9" = Throw unavailable
  /\ PolicyService.fetchPoliciesWithFilterAndSort host_lookup_down
       "all" "all" "supportDesc" None (Some "p9") None initial
     = (Ok {| PolicyService.policies := [];
              PolicyService.lastDocumentId := None;
              PolicyService.hasMore := false |},
        {| cachedParties := None;
           console := [console_error "ドキュメント取得エラー:" unavailable];
           requests :=
             [GetDoc "policy" "p9";
              GetDocs "policy" [orderBy "SupportRate" desc; limit 5]];
           draws := 0 |}).
Proof. split; reflexivity. Qed.

(** C4, amended.  When the query of [fetchPoliciesWithFilterAndSort]
    fails, the error is logged and raised again to the caller; when the
    lookup of its cursor document fails, the error is logged and
    swallowed, and the query is built without a cursor.  When the fetch
    of [processPartiesData] fails, the error is logged and swallowed,
    the empty list is returned and the cache stays unset; an empty
    parties collection gives the same return value, so the caller cannot
    tell the two apart. *)
Theorem database_failures_raised_or_swallowed (h : Host) (w : World)
  (e : Error) :
  (forall (categoryFilter partyFilter sortMethod : string)
          (searchTerm lastDocumentId : option string) (limitCount : option Z)
          (after : list QueryConstraint) (w1 : World),
     PolicyService.cursor h lastDocumentId w = (Ok after, w1) ->
     policy_getDocs h (length (requests w1))
       (PolicyService.filters categoryFilter partyFilter sortMethod
        ++ after ++ [limit (limitCount_of limitCount)])%list
     = Throw e ->
     exists w2,
       PolicyService.fetchPoliciesWithFilterAndSort h categoryFilter
         partyFilter sortMethod searchTerm lastDocumentId limitCount w
       = (Throw e, w2)
       /\ console w2
          = (console w1 ++ [console_error "政策データ取得エラー:" e])%list)
  /\ (forall lastId : string,
        truthy_string lastId = true ->
        policy_getDoc h (length (requests w)) lastId = Throw e ->
        exists w1,
          PolicyService.cursor h (Some lastId) w = (Ok [], w1)
          /\ console w1
             = (console w ++ [console_error "ドキュメント取得エラー:" e])%list
          /\ requests w1 = (requests w ++ [fetch_policy lastId])%list)
  /\ (cachedParties w = None ->
      parties_getDocs h (length (requests w)) = Throw e ->
      exists w',
        DataUtils.processPartiesData h w = (Ok [], w')
        /\ cachedParties w' = None
        /\ console w'
           = (console w
              ++ [console_error
                    "Firestoreからの政党データ取得に失敗しました:" e])%list)
  /\ (forall h' : Host,
        cachedParties w = None ->
        parties_getDocs h (length (requests w)) = Throw e ->
        parties_getDocs h' (length (requests w)) = Ok [] ->
        fst (DataUtils.processPartiesData h w)
        = fst (DataUtils.processPartiesData h' w)).
Proof.
  split; [|split; [|split]].
  - intros categoryFilter partyFilter sortMethod searchTerm lastDocumentId
      limitCount after w1 Hcursor Hq.
    destruct (fetchPoliciesWithFilterAndSort_run h categoryFilter partyFilter
                sortMethod searchTerm lastDocumentId limitCount w)
      as (after' & w1' & E & Hrun).
    rewrite Hcursor in E. inversion E; subst after' w1'.
    simpl in Hrun. rewrite Hq in Hrun.
    eexists. split; [exact Hrun | reflexivity].
  - intros lastId Htruthy Hdoc.
    destruct (cursor_run h (Some lastId) w) as (after & w1 & E & _ & _ & H).
    rewrite Htruthy, Hdoc in H. destruct H as (R & -> & L).
    exists w1. now repeat split.
  - intros Hc Hdb.
    rewrite (processPartiesData_failure h w e Hc Hdb).
    eexists. split; [reflexivity|]. now split.
  - intros h' Hc Hdb Hempty.
    rewrite (processPartiesData_failure h w e Hc Hdb).
    destruct (processPartiesData_miss h' w [] Hc Hempty)
      as (parties & w' & E & _ & _ & _ & _ & Hall).
    rewrite E. inversion Hall. reflexivity.
Qed.

(** The three failures, in a fresh process: a database that is down for
    the queries, one that is down for the lookups, and an empty one to
    compare with. *)
Lemma database_failures_raised_or_swallowed_witness :
  (exists w2,
     PolicyService.fetchPoliciesWithFilterAndSort host_down
       "all" "all" "supportDesc" None None None initial
     = (Throw unavailable, w2)
     /\ console w2 = [console_error "政策データ取得エラー:" unavailable])
  /\ (exists w1,
        PolicyService.cursor host_down (Some "p9") initial = (Ok [], w1)
        /\ console w1 = [console_error "ドキュメント取得エラー:" unavailable]
        /\ requests w1 = [fetch_policy "p9"])
  /\ (exists w',
        DataUtils.processPartiesData host_down initial = (Ok [], w')
        /\ cachedParties w' = None
        /\ console w'
           = [console_error
                "Firestoreからの政党データ取得に失敗しました:" unavailable])
  /\ fst (DataUtils.processPartiesData host_down initial)
     = fst (DataUtils.processPartiesData host_empty initial).
Proof.
  destruct (database_failures_raised_or_swallowed host_down initial
              unavailable)
    as (Hquery & Hlookup & Hparties & Hsame).
  split; [|split; [|split]].
  - apply (Hquery "all" "all" "supportDesc" None None None [] initial);
      reflexivity.
  - apply (Hlookup "p9"); reflexivity.
  - apply Hparties; reflexivity.
  - apply (Hsame host_empty); reflexivity.
Defined.

(** ** The route table (claim C8) *)

(** The ranking puts the admin route first and the catch-all last. *)
Lemma rankRoutes_routes :
  map AppContent.path (AppContent.rankRoutes AppContent.routes)
  = [party_path; "/admin/login"; "/admin"; "/"; "*"].
Proof. reflexivity. Qed.

Lemma matchRoutes_routes (pathname : string) :
  AppContent.matchRoutes AppContent.routes pathname
  = if AppContent.matchPath party_path pathname then
      Some {| AppContent.path := party_path;
              AppContent.element :=
                AppContent.ProtectedAdminRoute AppContent.PartyAdminLayout |}
    else if AppContent.matchPath "/admin/login" pathname then
      Some {| AppContent.path := "/admin/login";
              AppContent.element := AppContent.LoginPage |}
    else if AppContent.matchPath "/admin" pathname then
      Some {| AppContent.path := "/admin";
              AppContent.element := AppContent.Navigate "/admin/login" |}
    else if AppContent.matchPath "/" pathname then
      Some {| AppContent.path := "/";
              AppContent.element := AppContent.Navigate "/admin/login" |}
    else if AppContent.matchPath "*" pathname then
      Some {| AppContent.path := "*";
              AppContent.element := AppContent.Navigate "/" |}
    else None.
Proof. reflexivity. Qed.

(** The catch-all matches every pathname that starts with a slash. *)
Lemma matchPath_star (pathname : string) :
  AppContent.segments_of pathname <> None ->
  AppContent.matchPath "*" pathname = true.
Proof.
  unfold AppContent.matchPath. intros Hs.
  destruct (AppContent.segments_of pathname) as [segments|];
    [|now contradiction Hs].
  now destruct segments.
Qed.

Lemma matchPath_leading_slash (path pathname : string) :
  AppContent.matchPath path pathname = true ->
  AppContent.segments_of pathname <> None.
Proof.
  unfold AppContent.matchPath.
  destruct (AppContent.segments_of pathname); [discriminate|discriminate].
Qed.

Lemma resolve_step (fuel : nat) (authenticated : bool) (pathname : string) :
  AppContent.resolve (S fuel) authenticated pathname
  = match AppContent.matchRoutes AppContent.routes pathname with
    | None => None
    | Some r =>
        match AppContent.render authenticated (AppContent.element r) with
        | AppContent.Navigate to => AppContent.resolve fuel authenticated to
        | e => Some e
        end
    end.
Proof. reflexivity. Qed.

Lemma resolve_login (fuel : nat) (authenticated : bool) :
  AppContent.resolve (S fuel) authenticated "/admin/login"
  = Some AppContent.LoginPage.
Proof. rewrite resolve_step. reflexivity. Qed.

Lemma resolve_root (fuel : nat) (authenticated : bool) :
  AppContent.resolve (S (S fuel)) authenticated "/"
  = Some AppContent.LoginPage.
Proof.
  rewrite resolve_step.
  change (AppContent.matchRoutes AppContent.routes "/")
    with (Some {| AppContent.path := "/";
                  AppContent.element := AppContent.Navigate "/admin/login" |}).
  cbv beta iota delta [AppContent.render AppContent.element].
  apply resolve_login.
Qed.

(** Every pathname resolves, within three route matches, to the login
    page, or to the admin layout for an authenticated visit of the
    admin route. *)
Lemma resolve_characterised (fuel : nat) (authenticated : bool)
  (pathname : string) :
  AppContent.segments_of pathname <> None ->
  AppContent.resolve (3 + fuel) authenticated pathname
  = Some (if authenticated && AppContent.matchPath party_path pathname
          then AppContent.PartyAdminLayout
          else AppContent.LoginPage).
Proof.
  intros Hs. change (3 + fuel)%nat with (S (S (S fuel))).
  rewrite resolve_step, matchRoutes_routes.
  destruct (AppContent.matchPath party_path pathname).
  { destruct authenticated; [reflexivity|].
    cbv beta iota delta [AppContent.render AppContent.element AppContent.guard].
    apply resolve_login. }
  rewrite andb_false_r.
  destruct (AppContent.matchPath "/admin/login" pathname); [reflexivity|].
  destruct (AppContent.matchPath "/admin" pathname).
  { cbv beta iota delta [AppContent.render AppContent.element].
    apply resolve_login. }
  destruct (AppContent.matchPath "/" pathname).
  { cbv beta iota delta [AppContent.render AppContent.element].
    apply resolve_login. }
  rewrite (matchPath_star _ Hs).
  cbv beta iota delta [AppContent.render AppContent.element].
  apply resolve_root.
Qed.

(** The pathnames of the admin route: "/admin/party/", a party id that
    is not empty, and anything after it (letter case ignored). *)
Lemma matchPath_party (pathname : string) :
  AppContent.matchPath party_path pathname = true
  <-> exists admin party partyId rest,
        AppContent.segments_of pathname
        = Some (admin :: party :: partyId :: rest)
        /\ lowercase admin = "admin"
        /\ lowercase party = "party"
        /\ partyId <> "".
Proof.
  unfold AppContent.matchPath.
  change (AppContent.prefix (AppContent.compilePath party_path))
    with [AppContent.Static "admin"; AppContent.Static "party";
          AppContent.Param "partyId"].
  change (AppContent.splat (AppContent.compilePath party_path)) with true.
  destruct (AppContent.segments_of pathname) as [segments|].
  - split.
    + destruct segments as [|a [|b [|i rest]]];
        cbn [AppContent.segments_match AppContent.segment_matches];
        try discriminate; try (rewrite ?andb_false_r; discriminate).
      intros H.
      apply andb_prop in H. destruct H as [Ha H].
      apply andb_prop in H. destruct H as [Hb H].
      apply andb_prop in H. destruct H as [Hi _].
      apply String.eqb_eq in Ha, Hb.
      apply negb_true_iff, String.eqb_neq in Hi.
      exists a, b, i, rest. split; [reflexivity|].
      split; [now rewrite <- Ha|]. split; [now rewrite <- Hb | exact Hi].
    + intros (a & b & i & rest & E & Ha & Hb & Hi).
      inversion E; subst segments.
      cbn [AppContent.segments_match AppContent.segment_matches].
      rewrite Ha, Hb.
      apply String.eqb_neq in Hi. rewrite Hi.
      now destruct rest.
  - split; [discriminate|].
    intros (a & b & i & rest & E & _). discriminate.
Qed.

(** C8.  In the route table, "/" and "/admin" resolve to the login
    page, and so does every pathname that none of the four named routes
    matches: the catch-all sends it to "/", which sends it to the login
    path.  The admin layout is the element of "/admin/party/:partyId/*"
    only, wrapped in the authentication guard: a visit of that route
    resolves to the admin layout when authenticated and to the login
    page otherwise, as "/admin/party/123/x" does; nothing else resolves
    to the admin layout.  (The guard itself is modelled from the
    specification.) *)
Theorem routes_resolve_to_login_or_guarded_admin (fuel : nat)
  (authenticated : bool) :
  AppContent.resolve (3 + fuel) authenticated "/" = Some AppContent.LoginPage
  /\ AppContent.resolve (3 + fuel) authenticated "/admin"
     = Some AppContent.LoginPage
  /\ (forall pathname,
        AppContent.segments_of pathname <> None ->
        AppContent.matchPath "/" pathname = false ->
        AppContent.matchPath "/admin/login" pathname = false ->
        AppContent.matchPath party_path pathname = false ->
        AppContent.matchPath "/admin" pathname = false ->
        AppContent.matchRoutes AppContent.routes pathname
        = Some {| AppContent.path := "*";
                  AppContent.element := AppContent.Navigate "/" |}
        /\ AppContent.resolve (3 + fuel) authenticated pathname
           = Some AppContent.LoginPage)
  /\ (forall pathname,
        AppContent.matchPath party_path pathname = true ->
        AppContent.matchRoutes AppContent.routes pathname
        = Some {| AppContent.path := party_path;
                  AppContent.element :=
                    AppContent.ProtectedAdminRoute
                      AppContent.PartyAdminLayout |}
        /\ AppContent.resolve (3 + fuel) authenticated pathname
           = Some (if authenticated then AppContent.PartyAdminLayout
                   else AppContent.LoginPage))
  /\ AppContent.resolve (3 + fuel) false "/admin/party/123/x"
     = Some AppContent.LoginPage
  /\ AppContent.resolve (3 + fuel) true "/admin/party/123/x"
     = Some AppContent.PartyAdminLayout
  /\ (forall pathname,
        AppContent.resolve (3 + fuel) authenticated pathname
        = Some AppContent.PartyAdminLayout ->
        authenticated = true
        /\ AppContent.matchPath party_path pathname = true)
  /\ (forall r,
        In r AppContent.routes ->
        AppContent.element r <> AppContent.PartyAdminLayout).
Proof.
  split; [now rewrite resolve_characterised, andb_false_r|].
  split; [now rewrite resolve_characterised, andb_false_r|].
  split.
  { intros pathname Hs Hroot Hlogin Hparty Hadmin. split.
    - rewrite matchRoutes_routes, Hparty, Hlogin, Hadmin, Hroot.
      now rewrite (matchPath_star _ Hs).
    - rewrite (resolve_characterised _ _ _ Hs), Hparty.
      now rewrite andb_false_r. }
  split.
  { intros pathname Hparty. split.
    - now rewrite matchRoutes_routes, Hparty.
    - rewrite (resolve_characterised _ _ _
                 (matchPath_leading_slash _ _ Hparty)), Hparty.
      now rewrite andb_true_r. }
  split; [now rewrite resolve_characterised|].
  split; [now rewrite resolve_characterised|].
  split.
  { intros pathname Hres.
    destruct (AppContent.segments_of pathname) as [segments|] eqn:Hs.
    - rewrite resolve_characterised in Hres by (rewrite Hs; discriminate).
      destruct authenticated; [|discriminate].
      destruct (AppContent.matchPath party_path pathname);
        [now split | discriminate].
    - change (3 + fuel)%nat with (S (S (S fuel))) in Hres.
      rewrite resolve_step, matchRoutes_routes in Hres.
      unfold AppContent.matchPath in Hres. rewrite Hs in Hres.
      discriminate. }
  intros r Hin. simpl in Hin.
  repeat (destruct Hin as [Hin | Hin]; [subst r; discriminate|]).
  contradiction.
Qed.

(** The paths of the specification, visited without authentication. *)
Lemma routes_resolve_to_login_or_guarded_admin_witness :
  (AppContent.matchRoutes AppContent.routes "/no/such/page"
   = Some {| AppContent.path := "*";
             AppContent.element := AppContent.Navigate "/" |}
   /\ AppContent.resolve 3 false "/no/such/page" = Some AppContent.LoginPage)
  /\ (AppContent.matchRoutes AppContent.routes "/admin/party/123/x"
      = Some {| AppContent.path := party_path;
                AppContent.element :=
                  AppContent.ProtectedAdminRoute
                    AppContent.PartyAdminLayout |}
      /\ AppContent.resolve 3 false "/admin/party/123/x"
         = Some AppContent.LoginPage).
Proof.
  destruct (routes_resolve_to_login_or_guarded_admin 0 false)
    as (_ & _ & Hother & Hparty & _).
  split.
  - apply (Hother "/no/such/page"); [discriminate | reflexivity ..].
  - apply (Hparty "/admin/party/123/x"). reflexivity.
Defined.

(** ** Further properties *)

(** What both colour functions do on the names of their tables and on
    the others: a listed name gets its documented colour; dataUtils
    gives the gray to every other string, policyService to every other
    string that is not the name of an inherited member. *)
Theorem getPartyColor_tables :
  (forall name colour,
     In (name, colour) DataUtils.cases ->
     DataUtils.getPartyColor name = colour)
  /\ (forall name,
        ~ In name (map fst DataUtils.cases) ->
        DataUtils.getPartyColor name = "#808080")
  /\ (forall name colour,
        In (name, colour) PolicyService.partyColors ->
        PolicyService.getPartyColor name = PolicyService.own_string colour)
  /\ (forall name,
        ~ In name (map fst PolicyService.partyColors) ->
        ~ In name PolicyService.Object_prototype ->
        PolicyService.getPartyColor name
        = PolicyService.own_string "#808080")
  /\ (forall name,
        In name PolicyService.Object_prototype ->
        PolicyService.getPartyColor name = PolicyService.inherited name).
Proof.
  split; [exact DataUtils_getPartyColor_listed|].
  split; [exact DataUtils_getPartyColor_unlisted|].
  split; [exact PolicyService_getPartyColor_listed|].
  split; [exact PolicyService_getPartyColor_unlisted|].
  exact PolicyService_getPartyColor_inherited.
Qed.

Lemma getPartyColor_tables_witness :
  DataUtils.getPartyColor "公明党" = "#7209B7"
  /\ DataUtils.getPartyColor "無所属" = "#808080"
  /\ PolicyService.getPartyColor "公明党" = PolicyService.own_string "#00A0E9"
  /\ PolicyService.getPartyColor "無所属"
     = PolicyService.own_string "#808080"
  /\ PolicyService.getPartyColor "toString"
     = PolicyService.inherited "toString".
Proof.
  destruct getPartyColor_tables as (H1 & H2 & H3 & H4 & H5).
  split; [apply H1; simpl; tauto|].
  split; [apply H2; simpl; intuition discriminate|].
  split; [apply H3; simpl; tauto|].
  split; [apply H4; simpl; intuition discriminate|].
  apply H5; simpl; tauto.
Defined.

(** The sort method gives the field and the direction of the query; an
    unrecognized method orders by support rate, descending. *)
Theorem ordering_of_the_sort_method :
  PolicyService.ordering "supportDesc" = ("SupportRate", desc)
  /\ PolicyService.ordering "supportAsc" = ("SupportRate", asc)
  /\ PolicyService.ordering "opposeDesc" = ("NonSupportRate", desc)
  /\ forall sortMethod,
       sortMethod <> "supportDesc" -> sortMethod <> "supportAsc" ->
       sortMethod <> "opposeDesc" ->
       PolicyService.ordering sortMethod = ("SupportRate", desc).
Proof.
  repeat split.
  intros sortMethod H1 H2 H3. unfold PolicyService.ordering.
  apply String.eqb_neq in H1, H2, H3. now rewrite H1, H2, H3.
Qed.

Lemma ordering_of_the_sort_method_witness :
  PolicyService.ordering "newest" = ("SupportRate", desc).
Proof.
  destruct ordering_of_the_sort_method as (_ & _ & _ & H).
  apply H; discriminate.
Defined.

(** The filters of the query: the sentinel "all" adds no constraint, any
    other category asks for membership in AffectedFields, any other
    party for equality of the field name; the ordering comes last. *)
Theorem filters_of_the_query (categoryFilter partyFilter sortMethod : string) :
  let order :=
    orderBy (fst (PolicyService.ordering sortMethod))
      (snd (PolicyService.ordering sortMethod)) in
  PolicyService.filters "all" "all" sortMethod = [order]
  /\ (categoryFilter <> "all" ->
      PolicyService.filters categoryFilter "all" sortMethod
      = [where_ "AffectedFields" "array-contains" categoryFilter; order])
  /\ (partyFilter <> "all" ->
      PolicyService.filters "all" partyFilter sortMethod
      = [where_ "name" "==" partyFilter; order])
  /\ (categoryFilter <> "all" -> partyFilter <> "all" ->
      PolicyService.filters categoryFilter partyFilter sortMethod
      = [where_ "AffectedFields" "array-contains" categoryFilter;
         where_ "name" "==" partyFilter; order]).
Proof.
  intros order. unfold PolicyService.filters.
  split; [reflexivity|].
  split; [|split].
  - intros Hc. apply String.eqb_neq in Hc. now rewrite Hc.
  - intros Hp. apply String.eqb_neq in Hp. now rewrite Hp.
  - intros Hc Hp. apply String.eqb_neq in Hc, Hp. now rewrite Hc, Hp.
Qed.

Lemma filters_of_the_query_witness :
  PolicyService.filters "economy" "公明党" "opposeDesc"
  = [where_ "AffectedFields" "array-contains" "economy";
     where_ "name" "==" "公明党"; orderBy "NonSupportRate" desc].
Proof.
  destruct (filters_of_the_query "economy" "公明党" "opposeDesc")
    as (_ & _ & _ & H).
  apply H; discriminate.
Defined.

(** The image of a party is the path made of its encoded name; when the
    name cannot be encoded, a warning is logged and the placeholder is
    returned. *)
Theorem getPartyImagePath_convention (h : Host) (partyName : option string)
  (w : World) :
  match encodeURIComponent h (ToString partyName) with
  | Ok encoded =>
      DataUtils.getPartyImagePath h partyName w
      = (Ok ("/cm_parly_images/" ++ encoded ++ ".jpg"), w)
  | Throw _ =>
      exists w',
        DataUtils.getPartyImagePath h partyName w
        = (Ok "/api/placeholder/80/80", w')
        /\ console_only w w'
        /\ console w'
           = (console w
              ++ [console_warn
                    ("政党画像が見つかりません: " ++ ToString partyName
                     ++ ".jpg")])%list
  end.
Proof.
  unfold DataUtils.getPartyImagePath. run.
  destruct (encodeURIComponent h (ToString partyName)); [reflexivity|].
  eexists. split; [reflexivity|]. now repeat split.
Qed.

Lemma index_last {A : Type} (xs : list A) (x : A) :
  index (xs ++ [x]) (Z.of_nat (length (xs ++ [x])) - 1) = Some x.
Proof.
  unfold index. rewrite length_app. simpl.
  replace (Z.of_nat (length xs + 1) - 1)%Z with (Z.of_nat (length xs)) by lia.
  destruct (Z.of_nat (length xs) <? 0)%Z eqn:E; [apply Z.ltb_lt in E; lia|].
  rewrite Nat2Z.id, nth_error_app2 by lia.
  now rewrite Nat.sub_diag.
Qed.

(** The cursor a page returns is the id of the last document the query
    returned, whatever the search filter keeps; there is none when the
    query returned no document. *)
Theorem page_cursor_is_the_last_document (h : Host)
  (categoryFilter partyFilter sortMethod : string)
  (searchTerm : option string) (lastDocumentId : option string)
  (limitCount : option Z) (w : World) :
  exists after w1,
    PolicyService.cursor h lastDocumentId w = (Ok after, w1)
    /\ forall docs,
         policy_getDocs h (length (requests w1))
           (PolicyService.filters categoryFilter partyFilter sortMethod
            ++ after ++ [limit (limitCount_of limitCount)])%list
         = Ok docs ->
         exists page w2,
           PolicyService.fetchPoliciesWithFilterAndSort h categoryFilter
             partyFilter sortMethod searchTerm lastDocumentId limitCount w
           = (Ok page, w2)
           /\ (docs = [] -> PolicyService.lastDocumentId page = None)
           /\ (forall before doc,
                 docs = (before ++ [doc])%list ->
                 PolicyService.lastDocumentId page = Some (doc_id doc)).
Proof.
  destruct (fetchPoliciesWithFilterAndSort_run h categoryFilter partyFilter
              sortMethod searchTerm lastDocumentId limitCount w)
    as (after & w1 & E & Hq).
  exists after, w1. split; [exact E|].
  intros docs Hdocs. simpl in Hq. rewrite Hdocs in Hq.
  destruct Hq as (converted & w2 & Hrun & _).
  eexists; eexists. split; [exact Hrun|]. simpl.
  split.
  - intros ->. reflexivity.
  - intros before doc ->. now rewrite index_last.
Qed.

Lemma page_cursor_is_the_last_document_witness :
  exists page w2,
    PolicyService.fetchPoliciesWithFilterAndSort host_two_policies
      "all" "all" "supportDesc" (Some "tax") None (Some 2%Z) initial
    = (Ok page, w2)
    /\ PolicyService.lastDocumentId page = Some "p2".
Proof.
  destruct (page_cursor_is_the_last_document host_two_policies
              "all" "all" "supportDesc" (Some "tax") None (Some 2%Z) initial)
    as (after & w1 & E & H).
  vm_compute in E. inversion E; subst.
  destruct (H two_policies eq_refl) as (page & w2 & Hrun & _ & Hlast).
  exists page, w2. split; [exact Hrun|].
  apply (Hlast [policy_doc "p1" "Tax reform" "lower taxes" 70 30]
           (policy_doc "p2" "School meals" "free lunch" 60 40)).
  reflexivity.
Defined.

(** ** Bounds of the rates *)

Lemma or_number_nonneg (x : option number) (d : number) :
  (forall v, x = Some v -> 0 <= v) -> 0 <= d -> 0 <= or_number x d.
Proof.
  intros Hx Hd. destruct x as [v|]; simpl; [|exact Hd].
  destruct (truthy_number v); [now apply Hx | exact Hd].
Qed.

Lemma or_number_pos (x : option number) (d : number) :
  (forall v, x = Some v -> 0 <= v) -> 0 < d -> 0 < or_number x d.
Proof.
  intros Hx Hd. destruct x as [v|]; simpl; [|exact Hd].
  destruct (truthy_number v) eqn:E; [|exact Hd].
  unfold truthy_number in E. apply negb_true_iff in E.
  apply Qeq_bool_neq in E. specialize (Hx v eq_refl).
  apply Qle_lteq in Hx. destruct Hx as [Hlt | Heq]; [exact Hlt|].
  exfalso. apply E. now symmetry.
Qed.

(** The rounded share of a part in a positive whole lies between 0 and
    100. *)
Lemma rounded_share_bounds (s t : number) :
  0 <= s -> s <= t -> 0 < t ->
  (0 <= Math_round (s / t * 100)%Q <= 100)%Z.
Proof.
  intros Hs Hst Ht.
  assert (H0 : 0 <= s / t) by (apply Qle_shift_div_l; [exact Ht | lra]).
  assert (H1 : s / t <= 1) by (apply Qle_shift_div_r; [exact Ht | lra]).
  unfold Math_round. set (r := s / t) in *.
  pose proof (Qfloor_le (r * 100 + (1 # 2))) as L.
  pose proof (Qlt_floor (r * 100 + (1 # 2))) as U.
  rewrite inject_Z_plus in U. change (inject_Z 1) with 1 in U.
  set (f := Qfloor (r * 100 + (1 # 2))) in *.
  assert (Hlo : inject_Z (-1) < inject_Z f)
    by (change (inject_Z (-1)) with (-1 # 1); lra).
  assert (Hhi : inject_Z f < inject_Z 101)
    by (change (inject_Z 101) with 101; lra).
  rewrite <- Zlt_Qlt in Hlo, Hhi. lia.
Qed.

(** For a parties document whose counts are not negative, both rates
    of the party lie between 0 and 100. *)
Theorem party_rates_within_bounds (h : Host)
  (doc : QueryDocumentSnapshot PartyDoc.t) (w : World) :
  (forall s, PartyDoc.supportCount (doc_data doc) = Some s -> 0 <= s) ->
  (forall o, PartyDoc.oppositionCount (doc_data doc) = Some o -> 0 <= o) ->
  exists p w',
    DataUtils.toParty h doc w = (Ok p, w')
    /\ (0 <= Party.supportRate p <= 100)%Z
    /\ (0 <= Party.opposeRate p <= 100)%Z.
Proof.
  intros Hs Ho.
  destruct (toParty_run h doc w)
    as (p & w' & E & _ & _ & _ & _ & Hrate & Hopp & _).
  exists p, w'. split; [exact E|].
  assert (Hb : (0 <= Party.supportRate p <= 100)%Z).
  { rewrite Hrate.
    pose proof (or_number_nonneg _ 0 Hs (Qle_refl 0)) as Hs0.
    pose proof (or_number_nonneg _ 0 Ho (Qle_refl 0)) as Ho0.
    destruct (gt _ 0) eqn:Hgt; [|lia].
    apply gt_spec in Hgt.
    apply rounded_share_bounds; [exact Hs0 | lra | exact Hgt]. }
  split; [exact Hb|]. rewrite Hopp. lia.
Qed.

Lemma party_rates_within_bounds_witness :
  exists p w',
    DataUtils.toParty host_empty (party_doc "a" "A" 0 3) initial = (Ok p, w')
    /\ (0 <= Party.supportRate p <= 100)%Z
    /\ (0 <= Party.opposeRate p <= 100)%Z.
Proof.
  apply (party_rates_within_bounds host_empty (party_doc "a" "A" 0 3) initial).
  - intros s H. inversion H. discriminate.
  - intros o H. inversion H. discriminate.
Defined.

(** For a policy document whose two rates are not negative, the total
    is positive, so that the rates are the rounded shares and never the
    fixed 50 and 50 of the other branch, and both lie between 0 and
    100. *)
Theorem policy_rates_within_bounds (h : Host) (id : string)
  (data : PolicyDoc.t) (w : World) :
  (forall s, PolicyDoc.SupportRate data = Some s -> 0 <= s) ->
  (forall o, PolicyDoc.NonSupportRate data = Some o -> 0 <= o) ->
  exists p w',
    PolicyService.convertToPolicyObject h id data w = (Ok p, w')
    /\ 0 < PolicyService.totalVotes p
    /\ (0 <= PolicyService.supportRate p <= 100)%Z
    /\ (0 <= PolicyService.opposeRate p <= 100)%Z.
Proof.
  intros Hs Ho.
  destruct (convertToPolicyObject_run h id data w)
    as (p & w' & E & _ & _ & _ & _ & _ & _ & _ & _ & _ & Hsr & Hor & Ht & _).
  exists p, w'. split; [exact E|].
  assert (H50 : 0 < 50) by reflexivity.
  pose proof (or_number_pos _ 50 Hs H50) as Hs0.
  pose proof (or_number_pos _ 50 Ho H50) as Ho0.
  set (support := or_number (PolicyDoc.SupportRate data) 50) in *.
  set (oppose := or_number (PolicyDoc.NonSupportRate data) 50) in *.
  assert (Hpos : 0 < support + oppose) by lra.
  rewrite Hsr, Hor, Ht.
  apply gt_spec in Hpos as Hgt. rewrite Hgt.
  split; [exact Hpos|].
  split; apply rounded_share_bounds; lra.
Qed.

Lemma policy_rates_within_bounds_witness :
  exists p w',
    PolicyService.convertToPolicyObject host_empty "p1"
      (doc_data (policy_doc "p1" "t" "d" 0 0)) initial
    = (Ok p, w')
    /\ 0 < PolicyService.totalVotes p
    /\ (0 <= PolicyService.supportRate p <= 100)%Z
    /\ (0 <= PolicyService.opposeRate p <= 100)%Z.
Proof.
  apply (policy_rates_within_bounds host_empty "p1"
           (doc_data (policy_doc "p1" "t" "d" 0 0)) initial).
  - intros s H. inversion H. discriminate.
  - intros o H. inversion H. discriminate.
Defined.

(** ** The trend of a policy *)

Lemma index_trendOptions (r : number) :
  0 <= r -> r < 1 ->
  index PolicyService.trendOptions (Math_floor (r * 3)) <> None.
Proof.
  intros H0 H1. unfold Math_floor.
  pose proof (Qfloor_le (r * 3)) as L.
  pose proof (Qlt_floor (r * 3)) as U.
  rewrite inject_Z_plus in U. change (inject_Z 1) with 1 in U.
  set (f := Qfloor (r * 3)) in *.
  assert (Hlo : inject_Z (-1) < inject_Z f)
    by (change (inject_Z (-1)) with (-1 # 1); lra).
  assert (Hhi : inject_Z f < inject_Z 3)
    by (change (inject_Z 3) with 3; lra).
  rewrite <- Zlt_Qlt in Hlo, Hhi.
  assert (Hf : f = 0%Z \/ f = 1%Z \/ f = 2%Z) by lia.
  destruct Hf as [-> | [-> | ->]]; discriminate.
Qed.

(** The trend of a policy follows its support rate: up above 60, down
    below 40, and no random number is drawn for either; from 40 to 60
    one number is drawn and selects the trend, which is one of the three
    options whenever the number drawn is at least 0 and less than 1. *)
Theorem trending_follows_the_support_rate (h : Host) (id : string)
  (data : PolicyDoc.t) (w : World) :
  exists p w',
    PolicyService.convertToPolicyObject h id data w = (Ok p, w')
    /\ ((60 < PolicyService.supportRate p)%Z ->
        PolicyService.trending p = Some PolicyService.up
        /\ draws w' = draws w)
    /\ ((PolicyService.supportRate p < 40)%Z ->
        PolicyService.trending p = Some PolicyService.down
        /\ draws w' = draws w)
    /\ ((40 <= PolicyService.supportRate p <= 60)%Z ->
        PolicyService.trending p
        = index PolicyService.trendOptions
            (Math_floor (Math_random h (draws w) * 3))
        /\ draws w' = S (draws w)
        /\ (0 <= Math_random h (draws w) ->
            Math_random h (draws w) < 1 ->
            PolicyService.trending p <> None)).
Proof.
  unfold PolicyService.convertToPolicyObject. run.
  match goal with
  | |- context [if (?x >? 60)%Z then _ else _] =>
      destruct (x >? 60)%Z eqn:Hup; [| destruct (x <? 40)%Z eqn:Hdown]
  end;
    eexists; eexists; (split; [reflexivity|]); simpl;
    rewrite Z.gtb_ltb in Hup;
    try (apply Z.ltb_lt in Hup);
    try (apply Z.ltb_ge in Hup);
    try (apply Z.ltb_lt in Hdown);
    try (apply Z.ltb_ge in Hdown).
  - split; [now split|]. split; intros; lia.
  - split; [intros; lia|]. split; [now split|]. intros; lia.
  - split; [intros; lia|]. split; [intros; lia|].
    intros _. split; [reflexivity|]. split; [reflexivity|].
    apply index_trendOptions.
Qed.

(** A policy at 50 and 50, with the draw 0 of the example host. *)
Lemma trending_follows_the_support_rate_witness :
  exists p w',
    PolicyService.convertToPolicyObject host_empty "p1" empty_policy initial
    = (Ok p, w')
    /\ PolicyService.trending p = Some PolicyService.up
    /\ draws w' = 1%nat.
Proof.
  destruct (trending_follows_the_support_rate host_empty "p1" empty_policy
              initial)
    as (p & w' & E & _ & _ & Hmid).
  exists p, w'. split; [exact E|].
  assert (Hs : PolicyService.supportRate p = 50%Z).
  { unfold PolicyService.convertToPolicyObject in E. vm_compute in E.
    inversion E. reflexivity. }
  destruct Hmid as (Ht & Hd & _); [rewrite Hs; lia|].
  split; [exact Ht | exact Hd].
Defined.

(** ** Sequences of calls *)

Lemma getPartyById_hit (h : Host) (id : string) (w : World)
  (parties : list Party.t) :
  cachedParties w = Some parties ->
  DataUtils.getPartyById h id w
  = (Ok (find (fun party => String.eqb (Party.id party) id) parties), w).
Proof.
  intros Hc. unfold DataUtils.getPartyById. run.
  rewrite Hc. simpl. now rewrite Hc.
Qed.

Lemma getPartyById_miss (h : Host) (id : string) (w w' : World)
  (parties : list Party.t) :
  cachedParties w = None ->
  DataUtils.processPartiesData h w = (Ok parties, w') ->
  DataUtils.getPartyById h id w
  = (Ok (find (fun party => String.eqb (Party.id party) id) (cache w')), w').
Proof.
  intros Hc E. unfold DataUtils.getPartyById. run.
  rewrite Hc. simpl. now rewrite E.
Qed.

Lemma cursor_requests (h : Host) (lastDocumentId : option string)
  (w w1 : World) (after : list QueryConstraint) :
  PolicyService.cursor h lastDocumentId w = (Ok after, w1) ->
  requests w1 = (requests w ++ lookup_of lastDocumentId)%list.
Proof.
  intros E.
  destruct (cursor_run h lastDocumentId w) as (after' & w1' & E' & _ & _ & H).
  rewrite E in E'. inversion E'; subst after' w1'.
  unfold lookup_of.
  destruct lastDocumentId as [lastId|].
  - destruct (truthy_string lastId).
    + now destruct H as [R _].
    + destruct H as [_ ->]. now rewrite app_nil_r.
  - destruct H as [_ ->]. now rewrite app_nil_r.
Qed.

(** What a call of [fetchPoliciesWithFilterAndSort] leaves of the
    world, whether it returns or throws: the party cache as it was, and
    the requests with the lookup and one query added. *)
Lemma fetchPolicies_effects (h : Host)
  (categoryFilter partyFilter sortMethod : string)
  (searchTerm lastDocumentId : option string) (limitCount : option Z)
  (w : World) :
  exists after w1,
    PolicyService.cursor h lastDocumentId w = (Ok after, w1)
    /\ cachedParties
         (snd (PolicyService.fetchPoliciesWithFilterAndSort h categoryFilter
                 partyFilter sortMethod searchTerm lastDocumentId limitCount
                 w))
       = cachedParties w
    /\ requests
         (snd (PolicyService.fetchPoliciesWithFilterAndSort h categoryFilter
                 partyFilter sortMethod searchTerm lastDocumentId limitCount
                 w))
       = (requests w ++ lookup_of lastDocumentId
          ++ [GetDocs "policy"
                (PolicyService.filters categoryFilter partyFilter sortMethod
                 ++ after ++ [limit (limitCount_of limitCount)])])%list.
Proof.
  destruct (fetchPoliciesWithFilterAndSort_run h categoryFilter partyFilter
              sortMethod searchTerm lastDocumentId limitCount w)
    as (after & w1 & E & Hq).
  exists after, w1. split; [exact E|].
  pose proof (cursor_requests _ _ _ _ _ E) as R1.
  simpl in Hq.
  destruct (policy_getDocs h _ _) as [docs|e].
  - destruct Hq as (converted & w2 & Hrun & _ & _ & C & _ & R).
    rewrite Hrun. simpl. split; [exact C|].
    now rewrite R, R1, <- app_assoc.
  - rewrite Hq. simpl. split; [reflexivity|].
    now rewrite R1, <- app_assoc.
Qed.

Lemma parties_fetches_app (rs rs' : list Request) :
  parties_fetches (rs ++ rs') = (parties_fetches rs + parties_fetches rs')%nat.
Proof. unfold parties_fetches. now rewrite filter_app, length_app. Qed.

Lemma parties_fetches_lookup (lastDocumentId : option string) :
  parties_fetches (lookup_of lastDocumentId) = 0%nat.
Proof.
  destruct lastDocumentId as [lastId|]; [|reflexivity].
  unfold lookup_of. now destruct (truthy_string lastId).
Qed.

(** A call made when the cache is set leaves it as it is and asks the
    database for no party. *)
Lemma perform_keeps_the_cache (h : Host) (c : Call) (w : World)
  (parties : list Party.t) :
  cachedParties w = Some parties ->
  cachedParties (perform h c w) = Some parties
  /\ parties_fetches (requests (perform h c w))
     = parties_fetches (requests w).
Proof.
  intros Hc. destruct c as [|id|cf pf sm st last lim]; simpl.
  - rewrite (processPartiesData_hit h w parties Hc). now split.
  - rewrite (getPartyById_hit h id w parties Hc). now split.
  - destruct (fetchPolicies_effects h cf pf sm st last lim w)
      as (after & w1 & _ & C & R).
    rewrite C, R. split; [exact Hc|].
    rewrite !parties_fetches_app, parties_fetches_lookup.
    change (parties_fetches [GetDocs "policy" _]) with 0%nat. lia.
Qed.

(** Once the party cache is set it is never refreshed: whatever calls
    follow, and whatever the database holds by then, the cache keeps the
    same list and the parties collection is not fetched again. *)
Theorem cache_is_kept_once_set (calls : list (Host * Call)) (w : World)
  (parties : list Party.t) :
  cachedParties w = Some parties ->
  cachedParties (perform_all calls w) = Some parties
  /\ parties_fetches (requests (perform_all calls w))
     = parties_fetches (requests w).
Proof.
  revert w. induction calls as [|[h c] calls IH]; intros w Hc; simpl.
  - now split.
  - destruct (perform_keeps_the_cache h c w parties Hc) as [Hc' Hn].
    destruct (IH _ Hc') as [Hc'' Hn'].
    split; [exact Hc'' | congruence].
Qed.

(** A first call populates the cache from one party; then the database
    goes down and the collection changes, and three more calls are
    made. *)
Lemma cache_is_kept_once_set_witness :
  cachedParties
    (perform_all
       [(host_down, call_processPartiesData);
        (host_empty, call_getPartyById "a");
        (host_two_policies,
         call_fetchPolicies "all" "all" "supportDesc" None (Some "p1") None)]
       (snd (DataUtils.processPartiesData
               (host (fun _ => Ok [party_doc "a" "A" 1 1])
                  (fun _ _ => Ok []) (fun _ _ => Throw unavailable))
               initial)))
  = cachedParties
      (snd (DataUtils.processPartiesData
              (host (fun _ => Ok [party_doc "a" "A" 1 1])
                 (fun _ _ => Ok []) (fun _ _ => Throw unavailable))
              initial))
  /\ parties_fetches
       (requests
          (perform_all
             [(host_down, call_processPartiesData);
              (host_empty, call_getPartyById "a");
              (host_two_policies,
               call_fetchPolicies "all" "all" "supportDesc" None (Some "p1")
                 None)]
             (snd (DataUtils.processPartiesData
                     (host (fun _ => Ok [party_doc "a" "A" 1 1])
                        (fun _ _ => Ok []) (fun _ _ => Throw unavailable))
                     initial))))
     = 1%nat.
Proof.
  apply (cache_is_kept_once_set
           [(host_down, call_processPartiesData);
            (host_empty, call_getPartyById "a");
            (host_two_policies,
             call_fetchPolicies "all" "all" "supportDesc" None (Some "p1")
               None)]
           (snd (DataUtils.processPartiesData
                   (host (fun _ => Ok [party_doc "a" "A" 1 1])
                      (fun _ _ => Ok []) (fun _ _ => Throw unavailable))
                   initial))).
  reflexivity.
Defined.

Lemma perform_while_down (h : Host) (e : Error) (c : Call) (w : World) :
  (forall k, parties_getDocs h k = Throw e) ->
  cachedParties w = None ->
  is_party_call c = true ->
  perform h c w
  = {| cachedParties := None;
       console :=
         (console w
          ++ [console_error "Firestoreからの政党データ取得に失敗しました:" e])%list;
       requests := (requests w ++ [fetch_parties])%list;
       draws := draws w |}.
Proof.
  intros Hdown Hc Hparty.
  pose proof (processPartiesData_failure h w e Hc (Hdown _)) as E.
  destruct c as [|id|cf pf sm st last lim]; simpl; [| |discriminate].
  - now rewrite E.
  - now rewrite (getPartyById_miss h id w _ [] Hc E).
Qed.

(** While the database is down nothing is cached and nothing is held
    back: every call of [processPartiesData] or [getPartyById] sends
    its own request and logs its own error, [getPartyById] finds no
    party, and the cache is still unset after any number of calls. *)
Theorem database_down_is_asked_every_time (h : Host) (e : Error)
  (calls : list Call) (w : World) :
  (forall k, parties_getDocs h k = Throw e) ->
  cachedParties w = None ->
  forallb is_party_call calls = true ->
  (forall id, fst (DataUtils.getPartyById h id w) = Ok None)
  /\ cachedParties (perform_all (map (pair h) calls) w) = None
  /\ requests (perform_all (map (pair h) calls) w)
     = (requests w ++ repeat fetch_parties (length calls))%list
  /\ console (perform_all (map (pair h) calls) w)
     = (console w
        ++ repeat
             (console_error "Firestoreからの政党データ取得に失敗しました:" e)
             (length calls))%list.
Proof.
  intros Hdown Hc Hcalls. split.
  { intros id.
    rewrite (getPartyById_miss h id w _ []
               Hc (processPartiesData_failure h w e Hc (Hdown _))).
    reflexivity. }
  revert w Hc. induction calls as [|c calls IH]; intros w Hc; simpl.
  - now rewrite !app_nil_r.
  - simpl in Hcalls. apply andb_prop in Hcalls. destruct Hcalls as [Hp Hrest].
    rewrite (perform_while_down h e c w Hdown Hc Hp).
    match goal with
    | |- context [perform_all _ ?w0] =>
        destruct (IH Hrest w0 eq_refl) as (C & R & L)
    end.
    rewrite C, R, L. simpl.
    now rewrite <- !app_assoc.
Qed.

Lemma database_down_is_asked_every_time_witness :
  (forall id, fst (DataUtils.getPartyById host_down id initial) = Ok None)
  /\ cachedParties
       (perform_all
          (map (pair host_down)
             [call_getPartyById "a"; call_processPartiesData;
              call_getPartyById "a"])
          initial)
     = None
  /\ requests
       (perform_all
          (map (pair host_down)
             [call_getPartyById "a"; call_processPartiesData;
              call_getPartyById "a"])
          initial)
     = [fetch_parties; fetch_parties; fetch_parties]
  /\ console
       (perform_all
          (map (pair host_down)
             [call_getPartyById "a"; call_processPartiesData;
              call_getPartyById "a"])
          initial)
     = repeat
         (console_error "Firestoreからの政党データ取得に失敗しました:" unavailable)
         3.
Proof.
  apply (database_down_is_asked_every_time host_down unavailable
           [call_getPartyById "a"; call_processPartiesData;
            call_getPartyById "a"]
           initial); reflexivity.
Defined.

(** ** Looking up what was fetched *)

Lemma find_converted (h : Host)
  (docs : list (QueryDocumentSnapshot PartyDoc.t)) (parties : list Party.t)
  (doc : QueryDocumentSnapshot PartyDoc.t) :
  Forall2 (converted_by h) docs parties ->
  map Party.id parties = map doc_id docs ->
  NoDup (map doc_id docs) ->
  In doc docs ->
  exists party,
    find (fun party => String.eqb (Party.id party) (doc_id doc)) parties
    = Some party
    /\ converted_by h doc party.
Proof.
  intros Hall. induction Hall as [|doc0 p0 docs ps Hconv Hall IH];
    intros Hids Hnodup Hin; simpl in *.
  - contradiction.
  - inversion Hids as [[Hid Hids']].
    inversion Hnodup as [|? ? Hfresh Hnodup']; subst.
    destruct Hin as [-> | Hin].
    + exists p0. rewrite Hid, String.eqb_refl. now split.
    + destruct (String.eqb (Party.id p0) (doc_id doc)) eqn:E.
      * apply String.eqb_eq in E. exfalso. apply Hfresh.
        rewrite <- Hid, E. now apply in_map.
      * now apply IH.
Qed.

(** In a process whose cache is unset, looking up the id of any
    document of the parties collection (the ids of a collection being
    distinct) fetches the collection and returns the party converted
    from that very document. *)
Theorem getPartyById_finds_every_document (h : Host) (w : World)
  (docs : list (QueryDocumentSnapshot PartyDoc.t))
  (doc : QueryDocumentSnapshot PartyDoc.t) :
  cachedParties w = None ->
  parties_getDocs h (length (requests w)) = Ok docs ->
  NoDup (map doc_id docs) ->
  In doc docs ->
  exists party w',
    DataUtils.getPartyById h (doc_id doc) w = (Ok (Some party), w')
    /\ converted_by h doc party
    /\ Party.id party = doc_id doc
    /\ requests w' = (requests w ++ [fetch_parties])%list.
Proof.
  intros Hc Hdb Hnodup Hin.
  destruct (processPartiesData_miss h w docs Hc Hdb)
    as (parties & w' & E & Hc' & R & _ & Hids & Hall).
  destruct (find_converted h docs parties doc Hall Hids Hnodup Hin)
    as (party & Hfind & Hconv).
  exists party, w'.
  rewrite (getPartyById_miss h _ w w' parties Hc E).
  unfold cache. rewrite Hc'. simpl. rewrite Hfind.
  split; [reflexivity|]. split; [exact Hconv|]. split; [|exact R].
  apply find_some in Hfind. destruct Hfind as [_ Heq].
  now apply String.eqb_eq in Heq.
Qed.

Lemma getPartyById_finds_every_document_witness :
  exists party w',
    DataUtils.getPartyById
      (host (fun _ => Ok [party_doc "a" "A" 1 1; party_doc "b" "B" 3 1])
         (fun _ _ => Ok []) (fun _ _ => Throw unavailable))
      "b" initial
    = (Ok (Some party), w')
    /\ converted_by
         (host (fun _ => Ok [party_doc "a" "A" 1 1; party_doc "b" "B" 3 1])
            (fun _ _ => Ok []) (fun _ _ => Throw unavailable))
         (party_doc "b" "B" 3 1) party
    /\ Party.id party = "b"
    /\ requests w' = [fetch_parties].
Proof.
  apply (getPartyById_finds_every_document
           (host (fun _ => Ok [party_doc "a" "A" 1 1; party_doc "b" "B" 3 1])
              (fun _ _ => Ok []) (fun _ _ => Throw unavailable))
           initial [party_doc "a" "A" 1 1; party_doc "b" "B" 3 1]
           (party_doc "b" "B" 3 1)).
  - reflexivity.
  - reflexivity.
  - repeat (constructor; [simpl; intuition discriminate|]). constructor.
  - right; left; reflexivity.
Defined.

(** ** What the policy query sends and returns *)



Lemma prefix_spec (a b : string) :
  String.prefix a b = true <-> exists post, b = a ++ post.
Proof.
  revert b. induction a as [|c a IH]; intros b.
  - split; [intros _; now exists b | intros _; now destruct b].
  - destruct b as [|c' b]; simpl.
    + split; [discriminate | intros [post H]; discriminate].
    + destruct (ascii_dec c c') as [Heq | Hne].
      * subst c'. rewrite IH. split; intros [post H]; exists post.
        -- now rewrite H.
        -- now inversion H.
      * split; [discriminate|].
        intros [post H]. inversion H. congruence.
Qed.

Lemma includes_unfold (s sub : string) :
  includes s sub
  = if String.prefix sub s then true
    else match s with
         | EmptyString => false
         | String _ s' => includes s' sub
         end.
Proof. now destruct s. Qed.

(** [includes] is the test for a substring. *)
Lemma includes_spec (s sub : string) :
  includes s sub = true <-> exists pre post, s = pre ++ sub ++ post.
Proof.
  split.
  - induction s as [|c s IH]; rewrite includes_unfold;
      destruct (String.prefix sub _) eqn:E.
    + intros _. apply prefix_spec in E. destruct E as [post E].
      now exists "", post.
    + discriminate.
    + intros _. apply prefix_spec in E. destruct E as [post E].
      now exists "", post.
    + intros H. destruct (IH H) as (pre & post & ->).
      now exists (String c pre), post.
  - intros (pre & post & ->).
    induction pre as [|c pre IH]; rewrite includes_unfold.
    + assert (E : String.prefix sub ("" ++ sub ++ post) = true)
        by (apply prefix_spec; now exists post).
      now rewrite E.
    + destruct (String.prefix sub _); [reflexivity | exact IH].
Qed.

(** The search keeps a policy exactly when the search term in lower
    case occurs as a substring of its title or of its description in
    lower case. *)
Theorem search_is_a_substring_test (h : Host) (searchTerm : string)
  (policy : PolicyService.Policy) :
  PolicyService.matches h (toLowerCase h searchTerm) policy = true
  <-> (exists before after,
         toLowerCase h (PolicyService.title policy)
         = before ++ toLowerCase h searchTerm ++ after)
      \/ (exists before after,
            toLowerCase h (PolicyService.description policy)
            = before ++ toLowerCase h searchTerm ++ after).
Proof.
  unfold PolicyService.matches.
  rewrite orb_true_iff, !includes_spec. reflexivity.
Qed.

(** The policies of a page come from the documents of the query: there
    are no more of them than documents, each has the id of a document,
    and with a search term each passes the search.  So [hasMore] can be
    true only if the query returned at least the page size. *)
Theorem page_policies_come_from_the_documents (h : Host)
  (categoryFilter partyFilter sortMethod : string)
  (searchTerm lastDocumentId : option string) (limitCount : option Z)
  (w : World) :
  exists after w1,
    PolicyService.cursor h lastDocumentId w = (Ok after, w1)
    /\ forall docs,
         policy_getDocs h (length (requests w1))
           (PolicyService.filters categoryFilter partyFilter sortMethod
            ++ after ++ [limit (limitCount_of limitCount)])%list
         = Ok docs ->
         exists page w2,
           PolicyService.fetchPoliciesWithFilterAndSort h categoryFilter
             partyFilter sortMethod searchTerm lastDocumentId limitCount w
           = (Ok page, w2)
           /\ (length (PolicyService.policies page) <= length docs)%nat
           /\ incl (map PolicyService.id (PolicyService.policies page))
                (map doc_id docs)
           /\ (truthy_string (trim h (searchTerm_of searchTerm)) = true ->
               Forall
                 (fun policy =>
                    PolicyService.matches h
                      (toLowerCase h (searchTerm_of searchTerm)) policy
                    = true)
                 (PolicyService.policies page))
           /\ (PolicyService.hasMore page = true ->
               (limitCount_of limitCount <= Z.of_nat (length docs))%Z).
Proof.
  destruct (fetchPoliciesWithFilterAndSort_run h categoryFilter partyFilter
              sortMethod searchTerm lastDocumentId limitCount w)
    as (after & w1 & E & Hq).
  exists after, w1. split; [exact E|].
  intros docs Hdocs. simpl in Hq. rewrite Hdocs in Hq.
  destruct Hq as (converted & w2 & Hrun & Hids & Hlen & _).
  eexists; eexists. split; [exact Hrun|]. simpl.
  assert (Hle : (length (searched h (searchTerm_of searchTerm) converted)
                 <= length docs)%nat).
  { rewrite <- Hlen. unfold searched.
    destruct (truthy_string _); [apply filter_length_le | lia]. }
  split; [exact Hle|].
  split.
  { rewrite <- Hids. apply incl_map. unfold searched.
    destruct (truthy_string _); [apply incl_filter | apply incl_refl]. }
  split.
  { intros Htruthy. unfold searched. rewrite Htruthy.
    apply Forall_forall. intros policy Hin.
    now apply filter_In in Hin. }
  intros Hmore. apply Z.eqb_eq in Hmore. lia.
Qed.

Lemma page_policies_come_from_the_documents_witness :
  exists page w2,
    PolicyService.fetchPoliciesWithFilterAndSort host_two_policies
      "all" "all" "supportDesc" (Some "tax") None (Some 2%Z) initial
    = (Ok page, w2)
    /\ (length (PolicyService.policies page) <= 2)%nat
    /\ Forall
         (fun policy => PolicyService.matches host_two_policies "tax" policy
                        = true)
         (PolicyService.policies page).
Proof.
  destruct (page_policies_come_from_the_documents host_two_policies
              "all" "all" "supportDesc" (Some "tax") None (Some 2%Z) initial)
    as (after & w1 & E & H).
  vm_compute in E. inversion E; subst.
  destruct (H two_policies eq_refl) as (page & w2 & Hrun & Hle & _ & Hall & _).
  exists page, w2. split; [exact Hrun|]. split; [exact Hle|].
  apply Hall. reflexivity.
Defined.

(** ** A party without a name *)

(** A parties document without a name is converted all the same: the
    party has no name and the gray colour, and the text "undefined"
    stands for the name in the generated description and in the image
    path. *)
Theorem party_without_a_name (h : Host)
  (doc : QueryDocumentSnapshot PartyDoc.t) (w : World) :
  PartyDoc.name (doc_data doc) = None ->
  exists p w',
    DataUtils.toParty h doc w = (Ok p, w')
    /\ Party.name p = None
    /\ Party.color p = "#808080"
    /\ (Js.truthy_opt_string (PartyDoc.overview (doc_data doc)) = false ->
        Party.description p = "undefinedの政策と理念に基づいた政党です。")
    /\ (forall encoded,
          encodeURIComponent h "undefined" = Ok encoded ->
          Party.image p = "/cm_parly_images/" ++ encoded ++ ".jpg"
          /\ w' = w).
Proof.
  intros Hname.
  unfold DataUtils.toParty, DataUtils.getPartyImagePath. run.
  rewrite Hname. simpl.
  destruct (encodeURIComponent h "undefined") as [encoded|e];
    eexists; eexists; (split; [reflexivity|]); simpl;
    (split; [reflexivity|]); (split; [reflexivity|]); split.
  - intros Hfalsy. destruct (PartyDoc.overview (doc_data doc)) as [o|];
      simpl in *; [now rewrite Hfalsy | reflexivity].
  - intros enc Henc. inversion Henc; subst. now destruct w.
  - intros Hfalsy. destruct (PartyDoc.overview (doc_data doc)) as [o|];
      simpl in *; [now rewrite Hfalsy | reflexivity].
  - intros enc Henc. discriminate.
Qed.

Lemma party_without_a_name_witness :
  exists p w',
    DataUtils.toParty host_empty {| doc_id := "a"; doc_data := empty_party |}
      initial
    = (Ok p, w')
    /\ Party.name p = None
    /\ Party.color p = "#808080"
    /\ Party.description p = "undefinedの政策と理念に基づいた政党です。"
    /\ Party.image p = "/cm_parly_images/undefined.jpg".
Proof.
  destruct (party_without_a_name host_empty
              {| doc_id := "a"; doc_data := empty_party |} initial eq_refl)
    as (p & w' & E & Hn & Hc & Hd & Hi).
  exists p, w'. split; [exact E|]. split; [exact Hn|]. split; [exact Hc|].
  split; [apply Hd; reflexivity|].
  apply (Hi "undefined"). reflexivity.
Defined.
